(** * Breast-cancer inference API ([src/app.py]): model and verified properties

    The Flask application of [src/app.py] is embedded as pure functions over
    an explicit server state.  Python values that travel through the service
    (JSON request bodies, the artifact's metadata, JSON response bodies) are
    one inductive type [value]; Python exceptions are values of [pyexc] and
    code that may raise returns a [result].  The per-request context [g], the
    Prometheus registry and the log are threaded explicitly.

    Behaviour that the source delegates to its libraries (Pydantic's
    validation of [List[float]], Flask's routing and hooks, the interpreter's
    [int()] and truthiness) is written out here next to the source line that
    triggers it. *)

From Stdlib Require Import ZArith String Ascii List Bool Lia.
From Stdlib Require Import Floats.PrimFloat Floats.SpecFloat Floats.FloatOps.
From stdpp Require Import base option list gmap strings pretty.

Set Warnings "-register-all".

Local Open Scope string_scope.
Local Open Scope Z_scope.

(** ** Python values, exceptions and the builtins the service uses *)
Module Py.

(** What [json.loads] produces and [jsonify] consumes: [None], [bool], [int]
    (unbounded), [float] (IEEE-754 binary64, so NaN and the infinities are
    values: [json.loads] reads the literals [NaN], [Infinity], [-Infinity]),
    [str], [list] and [dict] with string keys in insertion order. *)
Inductive value : Type :=
| JNull
| JBool (b : bool)
| JInt (n : Z)
| JFloat (f : float)
| JStr (s : string)
| JList (items : list value)
| JDict (fields : list (string * value)).

(** One entry of Pydantic's [ValidationError.errors()]: the error type, the
    location (field names and list indices) and the offending input. *)
Inductive loc_item : Type :=
| LocField (name : string)
| LocIndex (i : nat).

Record error_detail : Type := ErrorDetail {
  err_type : string;
  err_loc : list loc_item;
  err_input : value
}.

(** Exceptions.  [ValidationError] is Pydantic's; every other exception class
    is [PyError cls msg] with [str(e) = msg]. *)
Inductive pyexc : Type :=
| ValidationError (errors : list error_detail)
| PyError (cls : string) (msg : string).

(** [str(e)].  The text of a [ValidationError] is a rendering of its errors
    that the service never shows: it answers that exception from
    [errors()]. *)
Definition exc_str (e : pyexc) : string :=
  match e with
  | ValidationError _ => "validation error"
  | PyError _ msg => msg
  end.

(** A computation that returns or raises. *)
Inductive result (A : Type) : Type :=
| Ok (a : A)
| Raise (e : pyexc).
Arguments Ok {A} a.
Arguments Raise {A} e.

Definition bind {A B} (m : result A) (k : A -> result B) : result B :=
  match m with
  | Ok a => k a
  | Raise e => Raise e
  end.

(** [try: body  except Exception: handler]: every [pyexc] is an [Exception]. *)
Definition try_except {A} (body : result A) (handler : pyexc -> result A) : result A :=
  match body with
  | Ok a => Ok a
  | Raise e => handler e
  end.

(** Did the computation raise? *)
Definition raised {A} (m : result A) : bool :=
  match m with Ok _ => false | Raise _ => true end.

(** String-to-number conversion is the interpreter's ([int(s)]) and the
    validation library's (lax-mode [str] to [float]); [module_name] is the
    [__name__] under which [app.py] was imported ([src.app] under Gunicorn,
    [__main__] when run as a script), which the interpreter puts in front
    of a class name in its messages.  The service is parametric in all
    three. *)
Class Runtime : Type := {
  int_of_str : string -> option Z;
  float_of_str : string -> option float;
  module_name : string
}.

(** *** Association lists as dictionaries *)
Fixpoint assoc {A} (k : string) (kv : list (string * A)) : option A :=
  match kv with
  | [] => None
  | (k', v) :: rest => if String.eqb k k' then Some v else assoc k rest
  end.

Definition type_name (v : value) : string :=
  match v with
  | JNull => "NoneType"
  | JBool _ => "bool"
  | JInt _ => "int"
  | JFloat _ => "float"
  | JStr _ => "str"
  | JList _ => "list"
  | JDict _ => "dict"
  end.

(** [d.get(key, default)]: only a [dict] has the method. *)
Definition py_get (d : value) (key : string) (default : value) : result value :=
  match d with
  | JDict kv => Ok (match assoc key kv with Some v => v | None => default end)
  | other => Raise (PyError "AttributeError"
                      ("'" ++ type_name other ++ "' object has no attribute 'get'"))
  end.

(** *** Floats *)
Definition float_is_finite (f : float) : bool :=
  negb (PrimFloat.is_nan f) && negb (PrimFloat.is_infinity f).

(** [float(n)] for an [int]: correctly rounded, [OverflowError] past the
    largest double. *)
Definition float_of_int (n : Z) : option float :=
  let f := SF2Prim (binary_normalize prec emax n 0 false) in
  if PrimFloat.is_infinity f then None else Some f.

(** [int(f)] for a finite [float]: truncation toward zero. *)
Definition trunc_float (f : float) : Z :=
  match Prim2SF f with
  | S754_finite s m e =>
      let mag := if (0 <=? e)%Z then Z.pos m * 2 ^ e else Z.pos m / 2 ^ (- e) in
      if s then - mag else mag
  | _ => 0
  end.

(** *** [int(x)] *)
Definition py_int `{Runtime} (v : value) : result Z :=
  match v with
  | JInt n => Ok n
  | JBool b => Ok (if b then 1 else 0)
  | JFloat f =>
      if PrimFloat.is_nan f then
        Raise (PyError "ValueError" "cannot convert float NaN to integer")
      else if PrimFloat.is_infinity f then
        Raise (PyError "OverflowError" "cannot convert float infinity to integer")
      else Ok (trunc_float f)
  | JStr s =>
      match int_of_str s with
      | Some n => Ok n
      | None => Raise (PyError "ValueError" "invalid literal for int() with base 10")
      end
  | other =>
      Raise (PyError "TypeError"
               ("int() argument must be a string, a bytes-like object or a real number, not '"
                ++ type_name other ++ "'"))
  end.

(** *** Truthiness ([if x:]) *)
Definition py_truthy (v : value) : bool :=
  match v with
  | JNull => false
  | JBool b => b
  | JInt n => negb (n =? 0)%Z
  | JFloat f => negb (PrimFloat.eqb f 0%float)
  | JStr s => negb (String.eqb s "")
  | JList l => match l with [] => false | _ => true end
  | JDict kv => match kv with [] => false | _ => true end
  end.

(** *** Subscription [x[i]] with an [int] index

    Negative indices count from the end.  A [str] is indexed by byte, which
    is Python's indexing on ASCII text. *)
Definition norm_index (len i : Z) : option nat :=
  if (0 <=? i)%Z && (i <? len)%Z then Some (Z.to_nat i)
  else if (- len <=? i)%Z && (i <? 0)%Z then Some (Z.to_nat (len + i))
  else None.

Definition py_getitem (v : value) (i : Z) : result value :=
  match v with
  | JList l =>
      match norm_index (Z.of_nat (List.length l)) i with
      | Some k =>
          match nth_error l k with
          | Some x => Ok x
          | None => Raise (PyError "IndexError" "list index out of range")
          end
      | None => Raise (PyError "IndexError" "list index out of range")
      end
  | JStr s =>
      match norm_index (Z.of_nat (String.length s)) i with
      | Some k =>
          match String.get k s with
          | Some c => Ok (JStr (String c EmptyString))
          | None => Raise (PyError "IndexError" "string index out of range")
          end
      | None => Raise (PyError "IndexError" "string index out of range")
      end
  | JDict _ => Raise (PyError "KeyError" (pretty i))
  | other =>
      Raise (PyError "TypeError" ("'" ++ type_name other ++ "' object is not subscriptable"))
  end.

(** *** Subscription [d[key]] with a [str] key *)
Definition py_getitem_key (d : value) (key : string) : result value :=
  match d with
  | JDict kv =>
      match assoc key kv with
      | Some v => Ok v
      | None => Raise (PyError "KeyError" ("'" ++ key ++ "'"))
      end
  | JList _ => Raise (PyError "TypeError" "list indices must be integers or slices, not str")
  | JStr _ => Raise (PyError "TypeError" "string indices must be integers, not 'str'")
  | other =>
      Raise (PyError "TypeError" ("'" ++ type_name other ++ "' object is not subscriptable"))
  end.

End Py.
Export Py.

#[global] Instance result_ret : MRet result := @Ok.
#[global] Instance result_bind : MBind result := fun A B k m => bind m k.

(** ** A runtime for ASCII decimal notation

    [int_of_str] reads what [int(s)] reads in base 10 from ASCII text:
    surrounding whitespace, a sign, digits with single underscores between
    them.  [float_of_str] reads surrounding whitespace, a sign, and either
    [inf], [infinity], [nan] (any case) or a decimal numeral with optional
    fraction and exponent, rounded to the nearest double (ties to even); a
    text that does not read this way is read again with its underscores
    removed, when it has some, none of them first, last or doubled.  Digits
    outside ASCII are not read. *)
Module AsciiRuntime.

Definition code (c : ascii) : Z := Z.of_nat (nat_of_ascii c).

Definition digit_val (c : ascii) : option Z :=
  if (48 <=? code c) && (code c <=? 57) then Some (code c - 48) else None.

Definition is_space (c : ascii) : bool :=
  (9 <=? code c) && (code c <=? 13) || (code c =? 32).

Definition lower (c : ascii) : ascii :=
  if (65 <=? code c) && (code c <=? 90) then ascii_of_nat (nat_of_ascii c + 32) else c.

Fixpoint drop_while (p : ascii -> bool) (cs : list ascii) : list ascii :=
  match cs with
  | c :: rest => if p c then drop_while p rest else cs
  | [] => []
  end.

Definition strip (p : ascii -> bool) (cs : list ascii) : list ascii :=
  rev (drop_while p (rev (drop_while p cs))).

(** An optional sign: [true] for [-]. *)
Definition read_sign (cs : list ascii) : bool * list ascii :=
  match cs with
  | "+"%char :: rest => (false, rest)
  | "-"%char :: rest => (true, rest)
  | _ => (false, cs)
  end.

(** Digits of an [int] literal; an underscore must stand between two digits. *)
Fixpoint int_digits (cs : list ascii) (acc : Z) (after_digit : bool) : option Z :=
  match cs with
  | [] => if after_digit then Some acc else None
  | c :: rest =>
      match digit_val c with
      | Some d => int_digits rest (10 * acc + d) true
      | None =>
          if Ascii.eqb c "_" && after_digit then int_digits rest acc false else None
      end
  end.

Definition parse_int (s : string) : option Z :=
  let (neg, ds) := read_sign (strip is_space (list_ascii_of_string s)) in
  n ← int_digits ds 0 false;
  Some (if neg then - n else n).

(** The longest prefix of digits: its value on top of [acc], its length, the rest. *)
Fixpoint span_digits (cs : list ascii) (acc : Z) (n : nat) : Z * nat * list ascii :=
  match cs with
  | c :: rest =>
      match digit_val c with
      | Some d => span_digits rest (10 * acc + d) (S n)
      | None => (acc, n, cs)
      end
  | [] => (acc, n, [])
  end.

(** A decimal numeral as [(m, e, digits)], standing for [m * 10^e]. *)
Definition parse_decimal (cs : list ascii) : option (Z * Z * nat) :=
  let '(ip, ni, r1) := span_digits cs 0 0 in
  let '(m, nf, r2) :=
    match r1 with
    | "."%char :: r => span_digits r ip 0
    | _ => (ip, 0%nat, r1)
    end in
  if (ni + nf =? 0)%nat then None
  else
    match r2 with
    | [] => Some (m, - Z.of_nat nf, (ni + nf)%nat)
    | c :: r3 =>
        if Ascii.eqb (lower c) "e" then
          let (eneg, r4) := read_sign r3 in
          let '(ev, ne, r5) := span_digits r4 0 0 in
          match ne, r5 with
          | S _, [] => Some (m, (if eneg then - ev else ev) - Z.of_nat nf, (ni + nf)%nat)
          | _, _ => None
          end
        else None
    end.

(** The double nearest to [n / d] for [0 < n] and [0 < d]: the quotient is
    taken with more than 53 significant bits and a sticky bit, then rounded. *)
Definition round_ratio (neg : bool) (n d : Z) : float :=
  let k := Z.max 0 (64 + Z.log2 d - Z.log2 n) in
  let q := (n * 2 ^ k) / d in
  let sticky := if (n * 2 ^ k) mod d =? 0 then 0 else 1 in
  let m := 2 * q + sticky in
  SF2Prim (binary_normalize prec emax (if neg then - m else m) (- k - 1) false).

Definition signed (neg : bool) (f : float) : float :=
  if neg then PrimFloat.opp f else f.

Definition decimal_to_float (neg : bool) (m e : Z) (digits : nat) : float :=
  if m =? 0 then signed neg 0%float
  else if 400 <? e then signed neg infinity
  else if e + Z.of_nat digits <? - 400 then signed neg 0%float
  else if 0 <=? e then round_ratio neg (m * 10 ^ e) 1
  else round_ratio neg m (10 ^ (- e)).

Definition read_float (cs : list ascii) : option float :=
  let (neg, body) := read_sign cs in
  let word := string_of_list_ascii (map lower body) in
  if String.eqb word "inf" || String.eqb word "infinity" then Some (signed neg infinity)
  else if String.eqb word "nan" then Some nan
  else
    '(m, e, digits) ← parse_decimal body;
    Some (decimal_to_float neg m e digits).

Fixpoint doubled_underscore (cs : list ascii) : bool :=
  match cs with
  | a :: (b :: _) as rest => Ascii.eqb a "_" && Ascii.eqb b "_" || doubled_underscore rest
  | _ => false
  end.

(** The text without its underscores, when it has some and none of them is
    first, last or doubled. *)
Definition strip_underscores (cs : list ascii) : option (list ascii) :=
  let is_underscore c := Ascii.eqb c "_" in
  if existsb is_underscore cs
     && negb (match cs with c :: _ => is_underscore c | [] => false end)
     && negb (match rev cs with c :: _ => is_underscore c | [] => false end)
     && negb (doubled_underscore cs)
  then Some (List.filter (fun c => negb (is_underscore c)) cs)
  else None.

Definition parse_float (s : string) : option float :=
  let cs := list_ascii_of_string s in
  match read_float (strip is_space cs) with
  | Some f => Some f
  | None => cs' ← strip_underscores cs; read_float cs'
  end.

End AsciiRuntime.

#[global] Instance ascii_runtime : Runtime := {|
  int_of_str := AsciiRuntime.parse_int;
  float_of_str := AsciiRuntime.parse_float;
  module_name := "src.app"
|}.

(** ** Request validation: [PredictInput]

    [features: Annotated[List[float], Field(min_length=30, max_length=30)]]
    validated by Pydantic v2 in its default (lax) mode. *)
Module Pydantic.

(** One element against [float]: a [float] passes as it is ([allow_inf_nan]
    is on by default, so NaN and the infinities pass), a [str] is parsed, an
    [int] or [bool] is converted, anything else is a type error.  The left
    injection is the error type. *)
Definition validate_float `{Runtime} (v : value) : string + float :=
  match v with
  | JFloat f => inr f
  | JStr s =>
      match float_of_str s with
      | Some f => inr f
      | None => inl "float_parsing"
      end
  | JInt n =>
      match float_of_int n with
      | Some f => inr f
      | None => inl "float_type"
      end
  | JBool b => inr (if b then 1%float else 0%float)
  | _ => inl "float_type"
  end.

(** The list validator's loop: each item is validated, then counted; the
    count exceeding [max_length] ends validation at once with the single
    [too_long] error, dropping the errors collected so far.  Otherwise the
    item's float is appended to the output, or its error to the errors. *)
Fixpoint validate_items `{Runtime} (max_length : nat) (input : value) (items : list value)
    (index : nat) (output : list float) (errors : list error_detail)
    : list error_detail + list float :=
  match items with
  | [] => match errors with [] => inr output | _ => inl errors end
  | item :: rest =>
      let too_long := (max_length <? S index)%nat in
      match validate_float item with
      | inr f =>
          if too_long then inl [ErrorDetail "too_long" [] input]
          else validate_items max_length input rest (S index) (output ++ [f]) errors
      | inl ty =>
          if too_long then inl [ErrorDetail "too_long" [] input]
          else validate_items max_length input rest (S index) output
                 (errors ++ [ErrorDetail ty [LocIndex index] item])
      end
  end.

(** [List[float]] with [min_length] and [max_length]: the input must be a
    list; [min_length] is checked on the validated output. *)
Definition validate_list `{Runtime} (min_length max_length : nat) (v : value)
    : list error_detail + list float :=
  match v with
  | JList items =>
      match validate_items max_length v items 0 [] [] with
      | inr output =>
          if (List.length output <? min_length)%nat then inl [ErrorDetail "too_short" [] v]
          else inr output
      | inl errors => inl errors
      end
  | _ => inl [ErrorDetail "list_type" [] v]
  end.

Definition with_outer_location (name : string) (e : error_detail) : error_detail :=
  ErrorDetail (err_type e) (LocField name :: err_loc e) (err_input e).

End Pydantic.

Record PredictInput : Type := { features : list float }.

(** The constructor call with the request data as keyword arguments: the
    data must be a mapping, or the interpreter raises [TypeError] naming the
    class with its module; the field is required and extra fields are
    ignored. *)
Definition PredictInput_new `{Runtime} (data : value) : result PredictInput :=
  match data with
  | JDict kwargs =>
      match assoc "features" kwargs with
      | None => Raise (ValidationError [ErrorDetail "missing" [LocField "features"] data])
      | Some v =>
          match Pydantic.validate_list 30 30 v with
          | inr fs => Ok {| features := fs |}
          | inl errors =>
              Raise (ValidationError (map (Pydantic.with_outer_location "features") errors))
          end
      end
  | other =>
      Raise (PyError "TypeError"
               (module_name ++ ".PredictInput() argument after ** must be a mapping, not "
                ++ type_name other))
  end.

(** [ve.errors()] as [jsonify] renders it; of each entry the [type], [loc]
    and [input] are kept (the texts [msg] and [url] are not modelled). *)
Definition loc_json (l : loc_item) : value :=
  match l with
  | LocField name => JStr name
  | LocIndex i => JInt (Z.of_nat i)
  end.

Definition error_json (e : error_detail) : value :=
  JDict [("type", JStr (err_type e));
         ("loc", JList (map loc_json (err_loc e)));
         ("input", err_input e)].

(** ** The model artifact *)

(** The classifier, an opaque object with [predict] and possibly
    [predict_proba]: [predict X] is [int(model.predict(X)[0])] and
    [predict_proba X] is [model.predict_proba(X)[0].tolist()], each either a
    value or the exception the call raises. *)
Module Predictor.
Record t : Type := {
  predict : list float -> result Z;
  predict_proba : option (list float -> result (list float))
}.
End Predictor.

(** What [joblib.load] returned: a dict in which the keys ["model"] and
    ["meta"] may each be present or not.  The value stored under ["model"]
    is [None] or an object; an object that is no classifier is a
    [Predictor.t] without [predict_proba] whose [predict] raises
    [AttributeError].  A load that raises, or that returns something the
    subscript [obj["model"]] raises on, is the [Raise] of [result bundle]. *)
Record bundle : Type := {
  bundle_model : option (option Predictor.t);
  bundle_meta : option value
}.

(** [load_artifact(path)], on the outcome of [joblib.load(path)]:
    [model = obj["model"]], [meta = obj.get("meta", {})].  The stored model
    is returned as it is, [None] included. *)
Definition load_artifact (loaded : result bundle) : result (option Predictor.t * value) :=
  obj ← loaded;
  model ← match bundle_model obj with
          | Some stored => Ok stored
          | None => Raise (PyError "KeyError" "'model'")
          end;
  let meta := default (JDict []) (bundle_meta obj) in
  Ok (model, meta).

(** [n_features_expected(meta)]:
    [try: return int(meta.get("n_features", 30))  except Exception: return 30]. *)
Definition n_features_expected `{Runtime} (meta : value) : result Z :=
  try_except
    (v ← py_get meta "n_features" (JInt 30); py_int v)
    (fun _ => Ok 30).

(** ** The application object and what a request carries *)

(** [app.model], [app.meta], [app.load_error], and the module constant
    [ARTIFACT_PATH]. *)
Record App : Type := {
  ARTIFACT_PATH : string;
  model : option Predictor.t;
  meta : value;
  load_error : option string
}.

(** [flask.g]: attributes exist once [before] has set them. *)
Record G : Type := {
  t0 : option float;
  request_id : option string
}.

(** The messages of the records written through [app.logger], each with
    the values its text is formatted from.  [MsgPredictFailed] is the fixed
    text ["Error en /predict"] and [MsgUnhandled] is Flask's
    ["Exception on <path> [<method>]"]: both calls pass the exception as
    [exc_info], which [JsonFormatter.format] does not write. *)
Inductive log_message : Type :=
| MsgModelLoaded (path : string)
| MsgLoadError (err : string)
| MsgPredictionOK (idx : Z) (name : value)
| MsgInvalidPayload (errors : list error_detail)
| MsgPredictFailed
| MsgUnhandled (path method : string).

Record log_record : Type := {
  levelname : string;
  message : log_message;
  log_request_id : option string
}.

(** [JsonFormatter.format]: the line has the level, the message and the
    logger's name (the same for every record, not kept here), and
    [request_id] only inside a request context and only when [g.request_id]
    is set and truthy.  Nothing else of the record is written: no
    exception, no traceback. *)
Definition format (ctx : option G) (level : string) (m : log_message) : log_record :=
  {| levelname := level;
     message := m;
     log_request_id :=
       match ctx with
       | Some g =>
           match request_id g with
           | Some rid => if String.eqb rid "" then None else Some rid
           | None => None
           end
       | None => None
       end |}.

(** The Prometheus collectors [REQ_COUNT] (labels endpoint, method, status)
    and [REQ_LATENCY] (labels endpoint, method; the observations in order). *)
Record registry : Type := {
  REQ_COUNT : gmap (string * string * string) nat;
  REQ_LATENCY : gmap (string * string) (list float)
}.

Definition inc (k : string * string * string) (c : gmap (string * string * string) nat)
    : gmap (string * string * string) nat :=
  <[k := S (default 0%nat (c !! k))]> c.

Definition observe (k : string * string) (x : float) (h : gmap (string * string) (list float))
    : gmap (string * string) (list float) :=
  <[k := (default [] (h !! k) ++ [x])%list]> h.

(** An inbound request: [request.path], [request.method], [request.headers]
    (keyed by the header's canonical name) and the outcome of
    [request.get_json(force=True, silent=False)], which is the parsed body
    or the [BadRequest] raised on a body that is not JSON. *)
Record request : Type := {
  path : string;
  method : string;
  req_headers : gmap string string;
  get_json : result value
}.

Inductive resp_body : Type :=
| JsonBody (v : value)
| MetricsBody (snapshot : registry)
| HtmlBody (text : string)
| FileBody (content : string)
| EmptyBody.

Record response : Type := {
  status_code : Z;
  headers : gmap string string;
  body : resp_body
}.

Definition jsonify (v : value) (status : Z) : response :=
  {| status_code := status;
     headers := {[ "Content-Type" := "application/json" ]};
     body := JsonBody v |}.

Definition opt_str (o : option string) : value :=
  match o with
  | Some s => JStr s
  | None => JNull
  end.

(** werkzeug's answer to a path that matches no rule as it stands: 404; or,
    when the path with its repeated slashes merged matches a rule, a
    redirect to that path, or 405 when the rule is for other methods. *)
Inductive no_rule_answer : Type :=
| NotFound
| Redirect (location : string)
| MethodNotAllowed.

(** What the process reads from outside while it serves one request: the
    value of [uuid.uuid4()], the three readings of [time.time()] (one in
    [before], two in [after]), and what the framework decides where
    [app.py] has no view of its own: [send_static_file filename] is the
    response of Flask's static view (the file under the [static] folder, or
    404 when there is none), and [no_rule] is werkzeug's answer when no rule
    matches. *)
Record env : Type := {
  uuid4 : string;
  time_before : float;
  time_after : float;
  time_default : float;
  send_static_file : string -> response;
  no_rule : no_rule_answer
}.

(** The server process: the application made by [create_app], the metrics
    registry and the log written so far. *)
Record server : Type := {
  app : App;
  metrics_registry : registry;
  log : list log_record
}.

(** ** [create_app] *)

(** The start-up part of [create_app], on the outcome of [joblib.load]:
    whatever [load_artifact] returns is stored and reported as loaded, a
    model that is [None] included. *)
Definition create_app (artifact_path : string) (loaded : result bundle) : App * list log_record :=
  match load_artifact loaded with
  | Ok (m, mt) =>
      ({| ARTIFACT_PATH := artifact_path; model := m; meta := mt; load_error := None |},
       [format None "INFO" (MsgModelLoaded artifact_path)])
  | Raise e =>
      ({| ARTIFACT_PATH := artifact_path; model := None; meta := JDict [];
          load_error := Some (exc_str e) |},
       [format None "ERROR" (MsgLoadError (exc_str e))])
  end.

(** ** Middleware *)

(** [before]: [g.t0 = time.time()];
    [g.request_id = request.headers.get("X-Request-Id", str(uuid.uuid4()))]. *)
Definition before (r : request) (e : env) : G :=
  {| t0 := Some (time_before e);
     request_id := Some (default (uuid4 e) (req_headers r !! "X-Request-Id")) |}.

(** [request.endpoint or "unknown"]. *)
Definition endpoint_label (endpoint : option string) : string :=
  match endpoint with
  | Some name => if String.eqb name "" then "unknown" else name
  | None => "unknown"
  end.

(** [after(resp)]: one counter increment, one latency observation, then the
    header; reading [g.request_id] raises when the attribute is not set. *)
Definition after (g : G) (endpoint : option string) (r : request) (e : env)
    (reg : registry) (resp : response) : result (registry * response) :=
  let endpoint := endpoint_label endpoint in
  let count := inc (endpoint, method r, pretty (status_code resp)) (REQ_COUNT reg) in
  let elapsed := PrimFloat.sub (time_after e) (default (time_default e) (t0 g)) in
  let latency := observe (endpoint, method r) elapsed (REQ_LATENCY reg) in
  match request_id g with
  | Some rid =>
      Ok ({| REQ_COUNT := count; REQ_LATENCY := latency |},
          {| status_code := status_code resp;
             headers := <["X-Request-Id" := rid]> (headers resp);
             body := body resp |})
  | None => Raise (PyError "AttributeError" "request_id")
  end.

(** ** Endpoints *)

(** [GET /]. *)
Definition root (a : App) : response :=
  jsonify (JDict [("status", JStr "success");
                  ("message", JStr "API ML Evaluación Modular");
                  ("model_path", JStr (ARTIFACT_PATH a));
                  ("meta", meta a);
                  ("load_error", opt_str (load_error a))]) 200.

(** [ok = (app.model is not None) and (app.load_error is None)]. *)
Definition health_ok (a : App) : bool :=
  match model a, load_error a with
  | Some _, None => true
  | _, _ => false
  end.

(** [GET /health]. *)
Definition health `{Runtime} (a : App) : result response :=
  let ok := health_ok a in
  n_features ← n_features_expected (meta a);
  Ok (jsonify (JDict [("status", JStr (if ok then "ok" else "error"));
                      ("model_loaded", JBool ok);
                      ("n_features", JInt n_features);
                      ("meta", meta a);
                      ("error", opt_str (load_error a))])
              (if ok then 200 else 500)).

(** The [try] body of [predict] after validation: probabilities when the
    model has [predict_proba], the class index, the class name. *)
Definition infer (m : Predictor.t) (mt : value) (X : list float)
    : result (Z * value * option (list float)) :=
  proba ← match Predictor.predict_proba m with
          | Some predict_proba => p ← predict_proba X; Ok (Some p)
          | None => Ok None
          end;
  pred_idx ← Predictor.predict m X;
  class_names ← py_get mt "class_names" JNull;
  pred_name ← (if py_truthy class_names then py_getitem class_names pred_idx
               else Ok (JInt pred_idx));
  Ok (pred_idx, pred_name, proba).

(** The [try] body of [predict] up to the log call: read the JSON body,
    validate it, reshape the features into one row and infer. *)
Definition predict_try `{Runtime} (m : Predictor.t) (mt : value) (r : request)
    : result (Z * value * option (list float)) :=
  data ← get_json r;
  payload ← PredictInput_new data;
  let X := features payload in
  infer m mt X.

(** [except Exception as e]: [app.logger.exception("Error en /predict")]
    writes that text at level ERROR; the answer carries [str(e)]. *)
Definition internal_error (g : G) (e : pyexc) : response * list log_record :=
  (jsonify (JDict [("status", JStr "error"); ("message", JStr (exc_str e))]) 500,
   [format (Some g) "ERROR" MsgPredictFailed]).

Definition proba_json (proba : option (list float)) : value :=
  match proba with
  | Some p => JList (map JFloat p)
  | None => JNull
  end.

(** [POST /predict]: the response and the records it logs. *)
Definition predict `{Runtime} (a : App) (g : G) (r : request) : response * list log_record :=
  match model a with
  | None =>
      (jsonify (JDict [("status", JStr "error");
                       ("message", JStr "Modelo no cargado");
                       ("error", opt_str (load_error a))]) 500,
       [])
  | Some m =>
      match predict_try m (meta a) r with
      | Ok (pred_idx, pred_name, proba) =>
          let info := format (Some g) "INFO" (MsgPredictionOK pred_idx pred_name) in
          match request_id g with
          | Some rid =>
              (jsonify (JDict [("status", JStr "success");
                               ("prediction_index", JInt pred_idx);
                               ("prediction", pred_name);
                               ("proba", proba_json proba);
                               ("request_id", JStr rid)]) 200,
               [info])
          | None =>
              let (resp, records) := internal_error g (PyError "AttributeError" "request_id") in
              (resp, info :: records)
          end
      | Raise (ValidationError errors) =>
          (jsonify (JDict [("status", JStr "error");
                           ("message", JStr "Payload inválido");
                           ("details", JList (map error_json errors))]) 400,
           [format (Some g) "WARNING" (MsgInvalidPayload errors)])
      | Raise e => internal_error g e
      end
  end.

(** [GET /metrics]: the exposition of the registry as it stands. *)
Definition metrics (reg : registry) : response :=
  {| status_code := 200;
     headers := {[ "Content-Type" := "text/plain; version=0.0.4; charset=utf-8" ]};
     body := MetricsBody reg |}.

(** ** Routing and the request cycle *)

(** The endpoints of the application: the four views of [app.py] and the
    view [static] that [Flask(__name__)] adds. *)
Inductive endpoint : Type :=
| EpRoot
| EpHealth
| EpPredict
| EpMetrics
| EpStatic (filename : string).

Definition endpoint_name (ep : endpoint) : string :=
  match ep with
  | EpRoot => "root"
  | EpHealth => "health"
  | EpPredict => "predict"
  | EpMetrics => "metrics"
  | EpStatic _ => "static"
  end.

(** The rules registered by [@app.get] and [@app.post]. *)
Definition url_map : list (string * (endpoint * string)) :=
  [("/", (EpRoot, "GET")); ("/health", (EpHealth, "GET"));
   ("/predict", (EpPredict, "POST")); ("/metrics", (EpMetrics, "GET"))].

Fixpoint strip_prefix (pre s : string) : option string :=
  match pre, s with
  | EmptyString, _ => Some s
  | String a pre', String b s' => if Ascii.eqb a b then strip_prefix pre' s' else None
  | String _ _, EmptyString => None
  end.

(** The rule [/static/<path:filename>] that [Flask(__name__)] registers for
    [GET] with the endpoint [static]: the [path] converter takes what
    follows [/static/] when it is not empty and does not start with a
    slash. *)
Definition static_filename (p : string) : option string :=
  match strip_prefix "/static/" p with
  | Some (String c rest) => if Ascii.eqb c "/" then None else Some (String c rest)
  | _ => None
  end.

(** The rule that [p], which is [request.path], matches as it stands. *)
Definition match_rule (p : string) : option (endpoint * string) :=
  match assoc p url_map with
  | Some rule => Some rule
  | None =>
      match static_filename p with
      | Some filename => Some (EpStatic filename, "GET")
      | None => None
      end
  end.

(** How Flask resolves a request against the rules: the view runs for the
    rule's method (and for [HEAD] on a [GET] rule); [OPTIONS] gets the
    automatic reply; another method is 405.  A path that matches no rule as
    it stands is answered by werkzeug (404, a redirect, or 405).  In the
    last two cases [request.endpoint] is unset. *)
Inductive route : Type :=
| RouteView (ep : endpoint)
| RouteOptions (ep : endpoint)
| RouteNoRule
| RouteMethodNotAllowed.

Definition match_request (p m : string) : route :=
  match match_rule p with
  | None => RouteNoRule
  | Some (ep, rule_method) =>
      if String.eqb m rule_method || (String.eqb m "HEAD" && String.eqb rule_method "GET")
      then RouteView ep
      else if String.eqb m "OPTIONS" then RouteOptions ep
      else RouteMethodNotAllowed
  end.

(** [request.endpoint]. *)
Definition request_endpoint (rt : route) : option string :=
  match rt with
  | RouteView ep | RouteOptions ep => Some (endpoint_name ep)
  | RouteNoRule | RouteMethodNotAllowed => None
  end.

(** The framework's own replies. *)
Definition http_error (status : Z) : response :=
  {| status_code := status;
     headers := {[ "Content-Type" := "text/html; charset=utf-8" ]};
     body := HtmlBody (pretty status) |}.

Definition options_response : response :=
  {| status_code := 200; headers := ∅; body := EmptyBody |}.

Definition redirect (location : string) : response :=
  {| status_code := 308;
     headers := {[ "Location" := location ]};
     body := HtmlBody "308" |}.

Definition no_rule_reply (answer : no_rule_answer) : response :=
  match answer with
  | NotFound => http_error 404
  | Redirect location => redirect location
  | MethodNotAllowed => http_error 405
  end.

(** Dispatch: run the view; an exception that leaves a view is logged and
    answered with 500 by the framework. *)
Definition dispatch_request `{Runtime} (a : App) (reg : registry) (g : G) (e : env)
    (rt : route) (r : request) : response * list log_record :=
  match rt with
  | RouteView EpRoot => (root a, [])
  | RouteView EpHealth =>
      match health a with
      | Ok resp => (resp, [])
      | Raise _ => (http_error 500, [format (Some g) "ERROR" (MsgUnhandled (path r) (method r))])
      end
  | RouteView EpPredict => predict a g r
  | RouteView EpMetrics => (metrics reg, [])
  | RouteView (EpStatic filename) => (send_static_file e filename, [])
  | RouteOptions _ => (options_response, [])
  | RouteNoRule => (no_rule_reply (no_rule e), [])
  | RouteMethodNotAllowed => (http_error 405, [])
  end.

(** One request from start to finish: [before], the view, [after]. *)
Definition handle_request `{Runtime} (s : server) (e : env) (r : request)
    : result (server * response) :=
  let g := before r e in
  let rt := match_request (path r) (method r) in
  let '(resp, records) := dispatch_request (app s) (metrics_registry s) g e rt r in
  '(reg, resp') ← after g (request_endpoint rt) r e (metrics_registry s) resp;
  Ok ({| app := app s; metrics_registry := reg; log := (log s ++ records)%list |}, resp').

(** ** The inbound contract, stated independently of the validator *)

Definition convertible `{Runtime} (v : value) : bool :=
  match Pydantic.validate_float v with
  | inr _ => true
  | inl _ => false
  end.

(** The errors of the elements that do not convert, each at its index. *)
Fixpoint item_errors `{Runtime} (index : nat) (items : list value) : list error_detail :=
  match items with
  | [] => []
  | item :: rest =>
      match Pydantic.validate_float item with
      | inl ty => ErrorDetail ty [LocIndex index] item :: item_errors (S index) rest
      | inr _ => item_errors (S index) rest
      end
  end.

(** The floats of the elements that convert, in order. *)
Fixpoint item_floats `{Runtime} (items : list value) : list float :=
  match items with
  | [] => []
  | item :: rest =>
      match Pydantic.validate_float item with
      | inr f => f :: item_floats rest
      | inl _ => item_floats rest
      end
  end.

(** A request object meets the contract when it has a [features] list of
    exactly [n] elements that all convert to [float]. *)
Definition meets_contract `{Runtime} (n : nat) (kwargs : list (string * value)) : bool :=
  match assoc "features" kwargs with
  | Some (JList items) => (List.length items =? n)%nat && forallb convertible items
  | _ => false
  end.

(** A field of a JSON response body. *)
Definition json_field (name : string) (resp : response) : option value :=
  match body resp with
  | JsonBody (JDict fields) => assoc name fields
  | _ => None
  end.

(** The response of a request served from start to finish. *)
Definition served `{Runtime} (s : server) (e : env) (r : request) : option response :=
  match handle_request s e r with
  | Ok (_, resp) => Some resp
  | Raise _ => None
  end.

(** ** Sample data: an application as the training script leaves it,
    and the requests used below *)

Definition sample_meta : value :=
  JDict [("status", JStr "ok");
         ("n_features", JInt 30);
         ("class_names", JList [JStr "malignant"; JStr "benign"]);
         ("test_accuracy", JFloat 0.96875%float);
         ("dataset", JStr "breast_cancer_wisconsin")].

(** A classifier that answers class 1 with probabilities [0.25, 0.75]. *)
Definition sample_clf : Predictor.t :=
  {| Predictor.predict := fun _ => Ok 1;
     Predictor.predict_proba := Some (fun _ => Ok [0.25%float; 0.75%float]) |}.

(** A classifier whose answer tells whether its first feature is NaN. *)
Definition nan_detector : Predictor.t :=
  {| Predictor.predict := fun X =>
       Ok (match X with f :: _ => if PrimFloat.is_nan f then 1 else 0 | [] => 0 end);
     Predictor.predict_proba := None |}.

(** A classifier whose [predict] raises [ValueError]. *)
Definition failing_clf : Predictor.t :=
  {| Predictor.predict := fun _ => Raise (PyError "ValueError" "Input X contains NaN.");
     Predictor.predict_proba := None |}.

Definition loaded_app (m : Predictor.t) (mt : value) : App :=
  {| ARTIFACT_PATH := "src/model/modelo_breast.pkl";
     model := Some m; meta := mt; load_error := None |}.

Definition fresh_server (a : App) : server :=
  {| app := a;
     metrics_registry := {| REQ_COUNT := ∅; REQ_LATENCY := ∅ |};
     log := [] |}.

Definition zeros (n : nat) : list value := repeat (JInt 0) n.

Definition post_predict (hdrs : gmap string string) (json : result value) : request :=
  {| path := "/predict"; method := "POST"; req_headers := hdrs; get_json := json |}.

Definition features_body (items : list value) : result value :=
  Ok (JDict [("features", JList items)]).

(** Two requests' worth of outside readings, on a host without static
    files. *)
Definition env_a : env :=
  {| uuid4 := "6f1c0a52-0c3e-4c55-9d0b-1d2f3a4b5c6d";
     time_before := 100%float; time_after := 100.5%float; time_default := 100.5%float;
     send_static_file := fun _ => http_error 404;
     no_rule := NotFound |}.

Definition env_b : env :=
  {| uuid4 := "a3b9e1d4-7f20-4e8a-b6c1-9e8d7c6b5a40";
     time_before := 200%float; time_after := 200.25%float; time_default := 200.25%float;
     send_static_file := fun _ => http_error 404;
     no_rule := NotFound |}.

Definition g_a : G := before (post_predict ∅ (features_body [])) env_a.

Definition sample_app : App := loaded_app sample_clf sample_meta.


(** Metadata whose [class_names] is present and empty. *)
Definition app_no_names : App :=
  loaded_app sample_clf (JDict [("n_features", JInt 30); ("class_names", JList [])]).

(** A [GET]: the body is never read; reading it would raise [BadRequest]. *)
Definition get_request (p : string) (hdrs : gmap string string) : request :=
  {| path := p; method := "GET"; req_headers := hdrs;
     get_json := Raise (PyError "BadRequest" "400 Bad Request: Failed to decode JSON object") |}.

Definition req_30_zeros : request := post_predict ∅ (features_body (zeros 30)).

Definition req_30_zeros_with_id : request :=
  post_predict {[ "X-Request-Id" := "client-42" ]} (features_body (zeros 30)).

Definition req_3_mixed : request :=
  post_predict ∅ (features_body [JInt 1; JStr "x"; JNull]).


(** ** The worker: requests served one after the other *)

(** One worker process serves its requests to completion, in order; each
    request comes with what the process reads from outside while serving it. *)
Fixpoint serve_all `{Runtime} (s : server) (reqs : list (env * request))
    : result (server * list response) :=
  match reqs with
  | [] => Ok (s, [])
  | (e, r) :: rest =>
      '(s1, resp) ← handle_request s e r;
      '(s2, resps) ← serve_all s1 rest;
      Ok (s2, resp :: resps)
  end.

(** What [/metrics] adds up to: the sum of all [api_requests_total] samples
    and the number of latency observations over all label sets. *)
Definition total_count (c : gmap (string * string * string) nat) : nat :=
  map_fold (fun _ n acc => (n + acc)%nat) 0%nat c.


(** [proba = app.model.predict_proba(X)[0].tolist() if hasattr(app.model,
    "predict_proba") else None], the first step of [infer]. *)
Definition proba_step (m : Predictor.t) (X : list float) : result (option (list float)) :=
  match Predictor.predict_proba m with
  | Some predict_proba => p ← predict_proba X; Ok (Some p)
  | None => Ok None
  end.

(** ** The training script ([src/train_breast_cancer.py])

    The bundle [main] dumps: [{"model": pipe, "meta": meta}], for training
    data with [n_columns] columns and class names [target_names];
    [test_accuracy] is the rounded accuracy the script stores. *)
Module Train.

Definition meta (n_columns : Z) (target_names : list string) (test_accuracy : float) : value :=
  JDict [("status", JStr "ok");
         ("n_features", JInt n_columns);
         ("class_names", JList (map JStr target_names));
         ("test_accuracy", JFloat test_accuracy);
         ("dataset", JStr "breast_cancer_wisconsin")].


End Train.

(** ** The test client ([tests/test_predict.py]) against the service

    The script is run with a base URL under which the service modelled above
    answers at its root, so that [f"{base}/health"] arrives as [GET /health]
    and [f"{base}/predict"] as [POST /predict], and a call is one
    [handle_request]. *)
Module Client.

Inductive failure : Type :=
| HttpStatus (status : Z)
| NotJson
| Raised (e : pyexc).

(** How the script ends: it runs to its last line, leaves through
    [SystemExit] with [code], or dies with an uncaught exception. *)
Inductive outcome : Type :=
| Completed
| Exited (code : Z)
| Crashed (f : failure).

(** What [ap.parse_args()] makes of the command line: the base URL (the
    option [--base-url], or [API_URL], or the default), or [SystemExit]
    before anything else happens (code 2 on an option it does not know,
    code 0 after [--help]). *)
Inductive parsed_args : Type :=
| Args (base_url : string)
| ArgsExit (code : Z).

(** What the [print] calls of [main] write on stdout: the banner of the
    health check with its URL, the banner of a sample with the file's name,
    a JSON document ([json.dumps(v, indent=2)]), and the closing line.  The
    argument parser's own help or usage text is not part of it. *)
Inductive line : Type :=
| HealthBanner (url : string)
| PredictBanner (name : string)
| Doc (v : value)
| Done.

(** What the [print] calls of [main] write on stderr: the warning
    [[ADVERTENCIA] El modelo no está cargado.] and the error
    [[ERROR] No se encontraron samples en tests/data]. *)
Inductive note : Type :=
| ModelNotLoaded
| NoSamples.

(** A file [tests/data/sample*.json]: its name, the outcome of
    [json.loads(p.read_text())], and what the service reads from outside
    while it serves the request made for it. *)
Record sample : Type := {
  sample_name : string;
  sample_json : result value;
  sample_env : env
}.

Record run : Type := {
  stdout : list line;
  stderr : list note;
  ending : outcome;
  server_after : server
}.

(** [base_url.rstrip("/")]. *)
Definition rstrip_slash (s : string) : string :=
  string_of_list_ascii
    (rev (AsciiRuntime.drop_while (fun c => Ascii.eqb c "/") (rev (list_ascii_of_string s)))).

(** A JSON value as the client gets it back: [jsonify] writes objects with
    their keys sorted, and the client's parser keeps the order of the text. *)
Fixpoint insert_by_key (k : string) (v : value) (kv : list (string * value))
    : list (string * value) :=
  match kv with
  | [] => [(k, v)]
  | (k', v') :: rest =>
      if String.leb k k' then (k, v) :: kv else (k', v') :: insert_by_key k v rest
  end.

Fixpoint sort_keys (v : value) : value :=
  match v with
  | JList items => JList (map sort_keys items)
  | JDict fields =>
      JDict (fold_right (fun p acc => insert_by_key (fst p) (sort_keys (snd p)) acc) [] fields)
  | _ => v
  end.

(** The JSON document of a response, if its body is one. *)
Definition document (resp : response) : option value :=
  match body resp with
  | JsonBody v => Some (sort_keys v)
  | _ => None
  end.

(** Does the value hold a NaN or an infinity? *)
Fixpoint non_finite (v : value) : bool :=
  match v with
  | JFloat f => negb (float_is_finite f)
  | JList items => existsb non_finite items
  | JDict fields => existsb (fun p => non_finite (snd p)) fields
  | _ => false
  end.

(** Which payloads the HTTP library in use writes as JSON: [json.dumps] in
    the [urllib] branch writes them all; [requests], where it serializes
    with [allow_nan=False], refuses a NaN or an infinity. *)
Definition urllib_writes (payload : value) : bool := true.

Definition requests_writes (payload : value) : bool := negb (non_finite payload).

(** One call: an error status raises ([raise_for_status], or [urlopen]'s
    [HTTPError]); otherwise the body is decoded as JSON. *)
Definition exchange `{Runtime} (s : server) (e : env) (r : request)
    : server * (failure + value) :=
  match handle_request s e r with
  | Ok (s', resp) =>
      (s', if 400 <=? status_code resp then inl (HttpStatus (status_code resp))
           else match document resp with
                | Some v => inr v
                | None => inl NotJson
                end)
  | Raise ex => (s, inl (Raised ex))
  end.

(** [http_get(url)] for the URL of the path [p]: no body, no
    [X-Request-Id]. *)
Definition http_get `{Runtime} (s : server) (e : env) (p : string)
    : server * (failure + value) :=
  exchange s e (get_request p ∅).

(** The request [http_post(url, payload)] sends for the path [p]. *)
Definition post_request (p : string) (payload : value) : request :=
  {| path := p; method := "POST"; req_headers := ∅; get_json := Ok payload |}.

(** [http_post(url, payload)]: a payload that the library does not write
    raises before anything is sent; any other is posted as it is.  [writes]
    is [urllib_writes] or [requests_writes], or what the installed version
    of the library does. *)
Definition http_post `{Runtime} (writes : value -> bool) (s : server) (e : env)
    (p : string) (payload : value) : server * (failure + value) :=
  if writes payload then exchange s e (post_request p payload)
  else (s, inl (Raised (PyError "InvalidJSONError"
                          "Out of range float values are not JSON compliant"))).

(** The loop over the sample files: print the banner, read the file, post
    it, print the answer; after the last one, the closing line. *)
Fixpoint post_samples `{Runtime} (writes : value -> bool) (s : server)
    (samples : list sample) (out : list line) (err : list note) : run :=
  match samples with
  | [] =>
      {| stdout := (out ++ [Done])%list; stderr := err; ending := Completed;
         server_after := s |}
  | p :: rest =>
      let out := (out ++ [PredictBanner (sample_name p)])%list in
      match sample_json p with
      | Raise ex =>
          {| stdout := out; stderr := err; ending := Crashed (Raised ex); server_after := s |}
      | Ok payload =>
          match http_post writes s (sample_env p) "/predict" payload with
          | (s', inr answer) =>
              post_samples writes s' rest (out ++ [Doc answer])%list err
          | (s', inl f) =>
              {| stdout := out; stderr := err; ending := Crashed f; server_after := s' |}
          end
      end
  end.

(** [main]: the arguments, the health check with its banner, the warning,
    [sys.exit(2)] without samples, then the loop.  [samples] are the files
    [sorted(data_dir.glob("sample*.json"))], in that order. *)
Definition main `{Runtime} (args : parsed_args) (writes : value -> bool) (s : server)
    (e : env) (samples : list sample) : run :=
  match args with
  | ArgsExit code =>
      {| stdout := []; stderr := []; ending := Exited code; server_after := s |}
  | Args base_url =>
      let base := rstrip_slash base_url in
      let out := [HealthBanner (base ++ "/health")] in
      match http_get s e "/health" with
      | (s1, inl f) =>
          {| stdout := out; stderr := []; ending := Crashed f; server_after := s1 |}
      | (s1, inr h) =>
          let out := (out ++ [Doc h])%list in
          match py_get h "model_loaded" (JBool false) with
          | Raise ex =>
              {| stdout := out; stderr := []; ending := Crashed (Raised ex);
                 server_after := s1 |}
          | Ok loaded =>
              let err := if py_truthy loaded then [] else [ModelNotLoaded] in
              match samples with
              | [] =>
                  {| stdout := out; stderr := (err ++ [NoSamples])%list; ending := Exited 2;
                     server_after := s1 |}
              | _ :: _ => post_samples writes s1 samples out err
              end
          end
      end
  end.

(** The body of [/health] as the client reads it, for the feature count
    [n]. *)
Definition health_document (a : App) (n : Z) : value :=
  JDict [("error", sort_keys (opt_str (load_error a)));
         ("meta", sort_keys (meta a));
         ("model_loaded", JBool (health_ok a));
         ("n_features", JInt n);
         ("status", JStr (if health_ok a then "ok" else "error"))].

(** The request made for a sample file that reads as JSON. *)
Definition sample_request (p : sample) : option (env * request) :=
  match sample_json p with
  | Ok payload => Some (sample_env p, post_request "/predict" payload)
  | Raise _ => None
  end.

(** What a completed run prints after the health document: for each sample
    its banner and the answer to it. *)
Definition transcript (samples : list sample) (answers : list value) : list line :=
  concat (zip_with (fun p answer => [PredictBanner (sample_name p); Doc answer])
            samples answers).

End Client.

(** One sample file holding 30 zeros. *)
Definition one_sample_file : list Client.sample :=
  [{| Client.sample_name := "sample1.json";
      Client.sample_json := features_body (zeros 30);
      Client.sample_env := env_b |}].

(** * Properties *)

(** ** The list validator *)
Section Validator.
Context `{Runtime}.

Lemma item_errors_nil index items :
  item_errors index items = [] <-> forallb convertible items = true.
Proof.
  revert index. induction items as [|item rest IH]; intros index; simpl; [done|].
  unfold convertible at 1. destruct (Pydantic.validate_float item); simpl.
  - split; discriminate.
  - apply IH.
Qed.

Lemma item_floats_length items :
  forallb convertible items = true -> List.length (item_floats items) = List.length items.
Proof.
  induction items as [|item rest IH]; simpl; [done|].
  unfold convertible at 1. destruct (Pydantic.validate_float item); simpl; [discriminate|].
  intros Hrest. by rewrite IH.
Qed.

(** Within [max_length] the loop returns all element errors, or all floats. *)
Lemma validate_items_within max input items index out errs :
  (index + List.length items <= max)%nat ->
  Pydantic.validate_items max input items index out errs =
    match (errs ++ item_errors index items)%list with
    | [] => inr (out ++ item_floats items)%list
    | es => inl es
    end.
Proof.
  revert index out errs.
  induction items as [|item rest IH]; intros index out errs Hlen; simpl in *.
  - rewrite !app_nil_r. by destruct errs.
  - destruct (Pydantic.validate_float item) as [ty|f];
      destruct (Nat.ltb_spec max (S index)) as [Hlt|Hge]; try lia;
      rewrite IH by lia; by rewrite <- app_assoc.
Qed.

(** Past [max_length] the loop ends with the single [too_long] error. *)
Lemma validate_items_too_long max input items index out errs :
  (index <= max)%nat -> (max < index + List.length items)%nat ->
  Pydantic.validate_items max input items index out errs =
    inl [ErrorDetail "too_long" [] input].
Proof.
  revert index out errs.
  induction items as [|item rest IH]; intros index out errs Hle Hlen; simpl in *; [lia|].
  destruct (Pydantic.validate_float item);
    (destruct (Nat.ltb_spec max (S index)) as [Hlt|Hge]; [done|apply IH; lia]).
Qed.

(** The list validator in closed form. *)
Lemma validate_list_spec n items :
  Pydantic.validate_list n n (JList items) =
    if (n <? List.length items)%nat then inl [ErrorDetail "too_long" [] (JList items)]
    else match item_errors 0 items with
         | [] => if (List.length items <? n)%nat
                 then inl [ErrorDetail "too_short" [] (JList items)]
                 else inr (item_floats items)
         | es => inl es
         end.
Proof.
  unfold Pydantic.validate_list.
  destruct (Nat.ltb_spec n (List.length items)) as [Hlong|Hfit].
  - rewrite validate_items_too_long by lia. done.
  - rewrite validate_items_within by lia. simpl.
    destruct (item_errors 0 items) as [|e es] eqn:Herrs; [|done].
    apply item_errors_nil in Herrs. by rewrite item_floats_length.
Qed.

End Validator.

(** ** The constructor of [PredictInput] *)
Section Validation.
Context `{Runtime}.

(** On a JSON object the constructor returns the payload or raises
    [ValidationError], in closed form. *)
Lemma PredictInput_new_dict kwargs :
  PredictInput_new (JDict kwargs) =
    match assoc "features" kwargs with
    | None =>
        Raise (ValidationError [ErrorDetail "missing" [LocField "features"] (JDict kwargs)])
    | Some (JList items) =>
        if (30 <? List.length items)%nat
        then Raise (ValidationError [ErrorDetail "too_long" [LocField "features"] (JList items)])
        else match item_errors 0 items with
             | [] =>
                 if (List.length items <? 30)%nat
                 then Raise (ValidationError
                               [ErrorDetail "too_short" [LocField "features"] (JList items)])
                 else Ok {| features := item_floats items |}
             | es =>
                 Raise (ValidationError (map (Pydantic.with_outer_location "features") es))
             end
    | Some v => Raise (ValidationError [ErrorDetail "list_type" [LocField "features"] v])
    end.
Proof.
  unfold PredictInput_new.
  destruct (assoc "features" kwargs) as [v|]; [|done].
  destruct v; try done.
  rewrite validate_list_spec.
  destruct (30 <? List.length items)%nat; [done|].
  destruct (item_errors 0 items); [|done].
  by destruct (List.length items <? 30)%nat.
Qed.

(** The validator accepts exactly the objects that meet the contract. *)
Lemma PredictInput_new_accepts kwargs :
  meets_contract 30 kwargs = true ->
  exists items, assoc "features" kwargs = Some (JList items) /\
    PredictInput_new (JDict kwargs) = Ok {| features := item_floats items |}.
Proof.
  unfold meets_contract. rewrite PredictInput_new_dict.
  destruct (assoc "features" kwargs) as [v|]; [|discriminate].
  destruct v; try discriminate.
  intros [Hlen Hall]%andb_prop. apply Nat.eqb_eq in Hlen.
  exists items. split; [done|].
  apply item_errors_nil with (index := 0%nat) in Hall. rewrite Hall, Hlen. done.
Qed.

Lemma PredictInput_new_rejects kwargs :
  meets_contract 30 kwargs = false ->
  exists e es, PredictInput_new (JDict kwargs) = Raise (ValidationError (e :: es)).
Proof.
  unfold meets_contract. rewrite PredictInput_new_dict.
  destruct (assoc "features" kwargs) as [v|]; [|by eauto].
  destruct v; try by eauto.
  intros Hbad.
  destruct (Nat.ltb_spec 30 (List.length items)) as [Hlong|Hfit]; [by eauto|].
  destruct (item_errors 0 items) as [|e es] eqn:Herrs; [|by simpl; eauto].
  apply item_errors_nil in Herrs. rewrite Herrs, andb_true_r in Hbad.
  apply Nat.eqb_neq in Hbad.
  destruct (Nat.ltb_spec (List.length items) 30); [by eauto|lia].
Qed.

End Validation.

(** ** Metadata and health *)
Section Health.
Context `{Runtime}.

Lemma n_features_expected_ok (mt : value) :
  exists n : Z, n_features_expected mt = Ok n.
Proof.
  unfold n_features_expected, try_except.
  destruct (v ← py_get mt "n_features" (JInt 30); py_int v); eauto.
Qed.

Lemma health_response (a : App) :
  exists n : Z,
    n_features_expected (meta a) = Ok n /\
    health a = Ok (jsonify (JDict [("status", JStr (if health_ok a then "ok" else "error"));
                                   ("model_loaded", JBool (health_ok a));
                                   ("n_features", JInt n);
                                   ("meta", meta a);
                                   ("error", opt_str (load_error a))])
                           (if health_ok a then 200 else 500)).
Proof.
  destruct (n_features_expected_ok (meta a)) as [n Hn].
  exists n. split; [done|]. unfold health. by rewrite Hn.
Qed.

(** C10. For every metadata value, dict-shaped or not, [n_features_expected]
    returns an integer and never raises: it is [int(meta["n_features"])]
    when that lookup and conversion succeed and 30 in every other case; and
    [/health], whose view calls it, always answers with that integer in its
    [n_features] field, also for the application left by a failed load. *)
Theorem n_features_expected_total (a : App) :
  exists n : Z,
    n_features_expected (meta a) = Ok n /\
    n = match v ← py_getitem_key (meta a) "n_features"; py_int v with
        | Ok k => k
        | Raise _ => 30
        end /\
    exists resp, health a = Ok resp /\ json_field "n_features" resp = Some (JInt n).
Proof.
  destruct (health_response a) as (n & Hn & Hresp).
  exists n. split; [done|]. split.
  - revert Hn. unfold n_features_expected, try_except.
    destruct (meta a) as [| | | | |items|fields]; simpl; try congruence.
    destruct (assoc "n_features" fields) as [v|]; simpl.
    + destruct (py_int v); congruence.
    + congruence.
  - eexists. split; [exact Hresp|]. reflexivity.
Qed.

End Health.

(** ** The request cycle *)
Section Cycle.
Context `{Runtime}.

(** The cycle never fails: the view's response comes back with the
    correlation id attached, and the registry and log are extended. *)
Lemma handle_request_unfold (s : server) (e : env) (r : request) :
  let g := before r e in
  let rt := match_request (path r) (method r) in
  let out := dispatch_request (app s) (metrics_registry s) g e rt r in
  let label := endpoint_label (request_endpoint rt) in
  handle_request s e r =
    Ok ({| app := app s;
           metrics_registry :=
             {| REQ_COUNT :=
                  inc (label, method r, pretty (status_code out.1))
                      (REQ_COUNT (metrics_registry s));
                REQ_LATENCY :=
                  observe (label, method r) (PrimFloat.sub (time_after e) (time_before e))
                          (REQ_LATENCY (metrics_registry s)) |};
           log := (log s ++ out.2)%list |},
        {| status_code := status_code out.1;
           headers := <["X-Request-Id" := default (uuid4 e) (req_headers r !! "X-Request-Id")]>
                        (headers out.1);
           body := body out.1 |}).
Proof.
  intros g rt out label. unfold handle_request.
  fold g rt. fold out. destruct out as [resp records]. reflexivity.
Qed.

Lemma served_unfold (s : server) (e : env) (r : request) :
  let out := dispatch_request (app s) (metrics_registry s) (before r e) e
               (match_request (path r) (method r)) r in
  served s e r =
    Some {| status_code := status_code out.1;
            headers := <["X-Request-Id" := default (uuid4 e) (req_headers r !! "X-Request-Id")]>
                         (headers out.1);
            body := body out.1 |}.
Proof.
  intros out. unfold served. rewrite handle_request_unfold. reflexivity.
Qed.




End Cycle.

(** ** [POST /predict] *)

Ltac result_cases :=
  unfold mbind, result_bind, bind in *.

Section Predict.
Context `{Runtime}.

(** What a successful inference went through. *)
Lemma infer_ok_inv m mt X idx name proba :
  infer m mt X = Ok (idx, name, proba) ->
  exists class_names,
    Predictor.predict m X = Ok idx /\
    py_get mt "class_names" JNull = Ok class_names /\
    (if py_truthy class_names then py_getitem class_names idx else Ok (JInt idx)) = Ok name.
Proof.
  unfold infer. result_cases.
  destruct (match Predictor.predict_proba m with
            | Some pp => match pp X with
                         | Ok p => Ok (Some p)
                         | Raise e => Raise e
                         end
            | None => Ok None
            end) as [pr|]; [|discriminate].
  destruct (Predictor.predict m X) as [i|] eqn:Hidx; [|discriminate].
  destruct (py_get mt "class_names" JNull) as [cn|]; [|discriminate].
  destruct (if py_truthy cn then py_getitem cn i else Ok (JInt i)) as [nm|] eqn:Hname;
    [|discriminate].
  intros [= <- <- <-]. by exists cn.
Qed.

(** A validated body is inferred on its features. *)
Lemma predict_try_valid m mt r data payload :
  get_json r = Ok data ->
  PredictInput_new data = Ok payload ->
  predict_try m mt r = infer m mt (features payload).
Proof.
  intros Hjson Hok. unfold predict_try. result_cases. by rewrite Hjson, Hok.
Qed.

(** What a successful run of the [try] body went through. *)
Lemma predict_try_ok_inv m mt r idx name proba :
  predict_try m mt r = Ok (idx, name, proba) ->
  exists data payload class_names,
    get_json r = Ok data /\
    PredictInput_new data = Ok payload /\
    Predictor.predict m (features payload) = Ok idx /\
    py_get mt "class_names" JNull = Ok class_names /\
    (if py_truthy class_names then py_getitem class_names idx else Ok (JInt idx)) = Ok name.
Proof.
  unfold predict_try. result_cases.
  destruct (get_json r) as [data|]; [|discriminate].
  destruct (PredictInput_new data) as [payload|] eqn:Hpayload; [|discriminate].
  intros (cn & Hidx & Hcn & Hname)%infer_ok_inv.
  by exists data, payload, cn.
Qed.

(** A body that fails validation never reaches the predictor. *)
Lemma predict_try_invalid m mt r data e :
  get_json r = Ok data -> PredictInput_new data = Raise e -> predict_try m mt r = Raise e.
Proof.
  intros Hjson Hbad. unfold predict_try. result_cases. by rewrite Hjson, Hbad.
Qed.

Lemma predict_invalid a m g r data errors :
  model a = Some m ->
  get_json r = Ok data ->
  PredictInput_new data = Raise (ValidationError errors) ->
  predict a g r =
    (jsonify (JDict [("status", JStr "error");
                     ("message", JStr "Payload inválido");
                     ("details", JList (map error_json errors))]) 400,
     [format (Some g) "WARNING" (MsgInvalidPayload errors)]).
Proof.
  intros Hm Hjson Hbad. unfold predict.
  by rewrite Hm, (predict_try_invalid _ _ _ _ _ Hjson Hbad).
Qed.

Lemma predict_internal_error a m g r cls msg :
  model a = Some m ->
  predict_try m (meta a) r = Raise (PyError cls msg) ->
  predict a g r = internal_error g (PyError cls msg).
Proof.
  intros Hm Htry. unfold predict. by rewrite Hm, Htry.
Qed.

(** The view reads [g] only through [g.request_id]. *)
Lemma predict_reads_request_id a g1 g2 r :
  request_id g1 = request_id g2 -> predict a g1 r = predict a g2 r.
Proof.
  intros Hid. unfold predict, internal_error, format. rewrite Hid. reflexivity.
Qed.

(** Every element error is listed, at its index. *)
Lemma item_errors_complete index items i item ty :
  items !! i = Some item ->
  Pydantic.validate_float item = inl ty ->
  ErrorDetail ty [LocIndex (index + i)] item ∈ item_errors index items.
Proof.
  revert index i. induction items as [|x rest IH]; intros index i Hi Hty; [done|].
  destruct i as [|i]; simpl in *.
  - injection Hi as ->. rewrite Hty, Nat.add_0_r. apply list_elem_of_here.
  - specialize (IH (S index) i Hi Hty).
    replace (index + S i)%nat with (S index + i)%nat by lia.
    destruct (Pydantic.validate_float x); [apply list_elem_of_further|]; exact IH.
Qed.


End Predict.

(** ** Error responses of [POST /predict] *)
Section Errors.
Context `{Runtime}.

(** C2 (as the code has it). With the model loaded, a body that is a JSON
    object but violates the contract (no [features], [features] not a list,
    wrong arity, or an element that does not convert) is answered with HTTP
    400 and a non-empty [details] list.  When the list has at most 30
    elements, [details] has the entry of every element that does not
    convert, at its index; when it has more than 30, [details] is the single
    entry [too_long] at the field, whatever the elements are. *)
Theorem contract_violations_reported (a : App) (m : Predictor.t) (g : G) (r : request)
    (kwargs : list (string * value)) :
  model a = Some m ->
  get_json r = Ok (JDict kwargs) ->
  meets_contract 30 kwargs = false ->
  exists (d : error_detail) (ds : list error_detail),
    (predict a g r).1 =
      jsonify (JDict [("status", JStr "error");
                      ("message", JStr "Payload inválido");
                      ("details", JList (map error_json (d :: ds)))]) 400 /\
    forall items : list value,
      assoc "features" kwargs = Some (JList items) ->
      ((List.length items <= 30)%nat ->
       forall (i : nat) (item : value) (ty : string),
         items !! i = Some item ->
         Pydantic.validate_float item = inl ty ->
         ErrorDetail ty [LocField "features"; LocIndex i] item ∈ d :: ds) /\
      ((30 < List.length items)%nat ->
       d :: ds = [ErrorDetail "too_long" [LocField "features"] (JList items)]).
Proof.
  intros Hm Hjson Hbad.
  destruct (PredictInput_new_rejects kwargs Hbad) as (d & ds & Hraise).
  exists d, ds. split.
  { by rewrite (predict_invalid _ _ _ _ _ _ Hm Hjson Hraise). }
  intros items Hfeat.
  rewrite PredictInput_new_dict, Hfeat in Hraise.
  split.
  - intros Hlen i item ty Hi Hty.
    destruct (Nat.ltb_spec 30 (List.length items)); [lia|].
    pose proof (item_errors_complete 0 items i item ty Hi Hty) as Hin.
    destruct (item_errors 0 items) as [|e0 es0] eqn:Herrs; [by apply elem_of_nil in Hin|].
    injection Hraise as <- <-.
    change (Pydantic.with_outer_location "features" e0
              :: map (Pydantic.with_outer_location "features") es0)
      with (map (Pydantic.with_outer_location "features") (e0 :: es0)).
    apply (list_elem_of_fmap_2 (Pydantic.with_outer_location "features")) in Hin.
    exact Hin.
  - intros Hlen.
    destruct (Nat.ltb_spec 30 (List.length items)); [|lia].
    by injection Hraise as <- <-.
Qed.

(** C3 (as the code has it). Validation rejects with HTTP 400 every
    [features] list that has an element not convertible to a float.  It has
    no finiteness check: every float, NaN and the infinities included,
    converts, and a list of 30 floats is handed to the predictor as it is. *)
Theorem unconvertible_elements_rejected (a : App) (m : Predictor.t) (g : G) (r : request)
    (kwargs : list (string * value)) (items : list value) :
  model a = Some m ->
  get_json r = Ok (JDict kwargs) ->
  assoc "features" kwargs = Some (JList items) ->
  (forallb convertible items = false -> status_code (predict a g r).1 = 400) /\
  (forall fs : list float,
      items = map JFloat fs ->
      List.length fs = 30%nat ->
      PredictInput_new (JDict kwargs) = Ok {| features := fs |} /\
      predict_try m (meta a) r = infer m (meta a) fs).
Proof.
  intros Hm Hjson Hfeat. split.
  - intros Hbad.
    destruct (PredictInput_new_rejects kwargs) as (e & es & Hraise).
    { unfold meets_contract. rewrite Hfeat, Hbad. apply andb_false_r. }
    by rewrite (predict_invalid _ _ _ _ _ _ Hm Hjson Hraise).
  - intros fs -> Hlen.
    assert (Hall : forallb convertible (map JFloat fs) = true).
    { clear. induction fs; [done|]. simpl. exact IHfs. }
    assert (Hfloats : item_floats (map JFloat fs) = fs).
    { clear. induction fs; [done|]. simpl. by rewrite IHfs. }
    destruct (PredictInput_new_accepts kwargs) as (items' & Hfeat' & Hok).
    { unfold meets_contract. rewrite Hfeat, length_map, Hlen, Hall. done. }
    rewrite Hfeat in Hfeat'. injection Hfeat' as <-.
    rewrite Hfloats in Hok. split; [exact Hok|].
    by rewrite (predict_try_valid _ _ _ _ _ Hjson Hok).
Qed.

(** C4 (as the code has it). When validation has passed and the predictor
    or the assembly of the response raises an exception other than a
    validation error, the response is HTTP 500 with a JSON body whose
    [status] is ["error"] and whose [message] is the text of that
    exception. *)
Theorem inference_error_answered_with_its_text (a : App) (m : Predictor.t) (g : G)
    (r : request) (data : value) (payload : PredictInput) (cls msg : string) :
  model a = Some m ->
  get_json r = Ok data ->
  PredictInput_new data = Ok payload ->
  infer m (meta a) (features payload) = Raise (PyError cls msg) ->
  (predict a g r).1 =
    jsonify (JDict [("status", JStr "error"); ("message", JStr msg)]) 500.
Proof.
  intros Hm Hjson Hok Hinfer.
  rewrite (predict_internal_error _ _ _ _ cls msg Hm); [done|].
  by rewrite (predict_try_valid _ _ _ _ _ Hjson Hok).
Qed.

(** C9 (as the code has it). In every successful [POST /predict] response,
    [prediction] is [class_names[prediction_index]] when the metadata's
    [class_names] is present and truthy (a non-empty list), and the raw
    integer [prediction_index] when [class_names] is absent or falsy
    ([None], an empty list). *)
Theorem prediction_names_class (a : App) (g : G) (r : request) :
  status_code (predict a g r).1 = 200 ->
  exists (idx : Z) (name class_names : value),
    json_field "prediction_index" (predict a g r).1 = Some (JInt idx) /\
    json_field "prediction" (predict a g r).1 = Some name /\
    py_get (meta a) "class_names" JNull = Ok class_names /\
    (py_truthy class_names = true -> py_getitem class_names idx = Ok name) /\
    (py_truthy class_names = false -> name = JInt idx).
Proof.
  unfold predict.
  destruct (model a) as [m|]; [|discriminate].
  destruct (predict_try m (meta a) r) as [[[idx name] proba]|e] eqn:Htry.
  - apply predict_try_ok_inv in Htry as (data & payload & cn & _ & _ & _ & Hcn & Hname).
    destruct (request_id g) as [rid|]; [|discriminate].
    intros _. exists idx, name, cn. repeat split; try done.
    + intros Ht. by rewrite Ht in Hname.
    + intros Hf. rewrite Hf in Hname. by injection Hname.
  - destruct e; discriminate.
Qed.

End Errors.

(** ** Repeated requests *)
Section Repeat.
Context `{Runtime}.

(** C7 (as the code has it). Two [POST /predict] calls with the same body
    and the same correlation id (the same inbound [X-Request-Id], or the
    same generated identifier), served one after the other, get identical
    responses, and neither call changes the loaded application; the
    deterministic predictor is a function of the features. *)
Theorem predict_repeatable_with_same_request_id (s : server) (e1 e2 : env) (r : request) :
  path r = "/predict" ->
  method r = "POST" ->
  default (uuid4 e1) (req_headers r !! "X-Request-Id")
    = default (uuid4 e2) (req_headers r !! "X-Request-Id") ->
  exists (s1 s2 : server) (resp : response),
    handle_request s e1 r = Ok (s1, resp) /\
    handle_request s1 e2 r = Ok (s2, resp) /\
    app s1 = app s /\
    app s2 = app s.
Proof.
  intros Hpath Hmethod Hid.
  eexists _, _, _. split; [apply handle_request_unfold|].
  split.
  - rewrite handle_request_unfold. cbn [app metrics_registry log].
    rewrite Hpath, Hmethod.
    change (match_request "/predict" "POST") with (RouteView EpPredict).
    cbn [dispatch_request].
    rewrite (predict_reads_request_id (app s) (before r e2) (before r e1) r)
      by (unfold before; cbn [request_id]; by rewrite Hid).
    rewrite Hid. reflexivity.
  - split; reflexivity.
Qed.

End Repeat.

(** ** The claims on concrete requests *)



(** C2, counterexample: a list of 31 elements whose first does not convert
    is answered with the single entry [too_long]; the element that does not
    convert is not listed. *)
Lemma long_list_hides_element_errors :
  convertible (JStr "x") = false /\
  status_code (predict sample_app g_a
                 (post_predict ∅ (features_body (JStr "x" :: zeros 30)))).1 = 400 /\
  json_field "details" (predict sample_app g_a
                          (post_predict ∅ (features_body (JStr "x" :: zeros 30)))).1 =
    Some (JList [error_json (ErrorDetail "too_long" [LocField "features"]
                               (JList (JStr "x" :: zeros 30)))]).
Proof. vm_compute. repeat split. Qed.

(** A JSON array, and a body that is not JSON, raise in the [try] body
    before validation and are answered through the last handler, with 500
    and no [details]. *)
Lemma non_object_body_answered_500 :
  status_code (predict sample_app g_a
                 (post_predict ∅ (Ok (JList [JInt 1; JInt 2; JInt 3])))).1 = 500 /\
  json_field "details" (predict sample_app g_a
                          (post_predict ∅ (Ok (JList [JInt 1; JInt 2; JInt 3])))).1 = None /\
  status_code (predict sample_app g_a
                 (post_predict ∅ (Raise (PyError "BadRequest" "400 Bad Request")))).1 = 500.
Proof. vm_compute. repeat split. Qed.

Lemma contract_violations_reported_witness :
  exists (d : error_detail) (ds : list error_detail),
    (predict sample_app g_a req_3_mixed).1 =
      jsonify (JDict [("status", JStr "error");
                      ("message", JStr "Payload inválido");
                      ("details", JList (map error_json (d :: ds)))]) 400 /\
    ErrorDetail "float_parsing" [LocField "features"; LocIndex 1] (JStr "x") ∈ d :: ds /\
    ErrorDetail "float_type" [LocField "features"; LocIndex 2] JNull ∈ d :: ds.
Proof.
  destruct (contract_violations_reported sample_app sample_clf g_a req_3_mixed
              [("features", JList [JInt 1; JStr "x"; JNull])]
              eq_refl eq_refl eq_refl) as (d & ds & Hresp & Hall).
  exists d, ds. split; [exact Hresp|].
  assert (Hlen : (List.length [JInt 1; JStr "x"; JNull] <= 30)%nat)
    by (apply Nat.leb_le; reflexivity).
  destruct (Hall _ eq_refl) as [Hwithin _].
  split.
  - exact (Hwithin Hlen 1%nat (JStr "x") "float_parsing" eq_refl eq_refl).
  - exact (Hwithin Hlen 2%nat JNull "float_type" eq_refl eq_refl).
Defined.

(** C3, counterexample: a NaN among the features passes validation and is
    what the predictor receives. *)
Lemma nan_reaches_predictor :
  PredictInput_new (JDict [("features", JList (JFloat nan :: zeros 29))])
    = Ok {| features := nan :: repeat 0%float 29 |} /\
  float_is_finite nan = false /\
  status_code (predict (loaded_app nan_detector sample_meta) g_a
                 (post_predict ∅ (features_body (JFloat nan :: zeros 29)))).1 = 200 /\
  json_field "prediction_index"
    (predict (loaded_app nan_detector sample_meta) g_a
       (post_predict ∅ (features_body (JFloat nan :: zeros 29)))).1 = Some (JInt 1).
Proof. vm_compute. repeat split. Qed.

Lemma unconvertible_elements_rejected_witness :
  status_code (predict sample_app g_a req_3_mixed).1 = 400.
Proof.
  apply (unconvertible_elements_rejected sample_app sample_clf g_a req_3_mixed
           [("features", JList [JInt 1; JStr "x"; JNull])] [JInt 1; JStr "x"; JNull]);
    reflexivity.
Defined.

(** C4, counterexample: the predictor's exception text is the [message] of
    the 500 response. *)
Lemma exception_text_in_response :
  status_code (predict (loaded_app failing_clf sample_meta) g_a req_30_zeros).1 = 500 /\
  json_field "message" (predict (loaded_app failing_clf sample_meta) g_a req_30_zeros).1
    = Some (JStr "Input X contains NaN.").
Proof. vm_compute. repeat split. Qed.

Lemma inference_error_witness :
  (predict (loaded_app failing_clf sample_meta) g_a req_30_zeros).1 =
    jsonify (JDict [("status", JStr "error");
                    ("message", JStr "Input X contains NaN.")]) 500.
Proof.
  apply (inference_error_answered_with_its_text (loaded_app failing_clf sample_meta)
           failing_clf g_a req_30_zeros
           (JDict [("features", JList (zeros 30))])
           {| features := repeat 0%float 30 |} "ValueError");
    reflexivity.
Defined.



(** C7, counterexample: the same body posted twice without an inbound id
    gets two different bodies, one per generated id. *)
Lemma same_body_different_responses :
  match handle_request (fresh_server sample_app) env_a req_30_zeros with
  | Ok (s1, resp1) =>
      match handle_request s1 env_b req_30_zeros with
      | Ok (_, resp2) =>
          json_field "request_id" resp1 = Some (JStr (uuid4 env_a)) /\
          json_field "request_id" resp2 = Some (JStr (uuid4 env_b)) /\
          body resp1 <> body resp2
      | Raise _ => False
      end
  | Raise _ => False
  end.
Proof. vm_compute. repeat split. intros [=]. Qed.

Lemma predict_repeatable_witness :
  exists (s1 s2 : server) (resp : response),
    handle_request (fresh_server sample_app) env_a req_30_zeros_with_id = Ok (s1, resp) /\
    handle_request s1 env_b req_30_zeros_with_id = Ok (s2, resp) /\
    app s1 = sample_app /\
    app s2 = sample_app.
Proof.
  apply (predict_repeatable_with_same_request_id (fresh_server sample_app) env_a env_b
           req_30_zeros_with_id); reflexivity.
Defined.

(** C9, counterexample: [class_names] is present and empty; the response
    succeeds with the raw index, while [class_names[1]] does not exist. *)
Lemma empty_class_names_gives_index :
  py_getitem_key (meta app_no_names) "class_names" = Ok (JList []) /\
  status_code (predict app_no_names g_a req_30_zeros).1 = 200 /\
  json_field "prediction_index" (predict app_no_names g_a req_30_zeros).1 = Some (JInt 1) /\
  json_field "prediction" (predict app_no_names g_a req_30_zeros).1 = Some (JInt 1) /\
  raised (py_getitem (JList []) 1) = true.
Proof. vm_compute. repeat split. Qed.

Lemma prediction_names_class_witness :
  exists (idx : Z) (name class_names : value),
    json_field "prediction_index" (predict sample_app g_a req_30_zeros).1 = Some (JInt idx) /\
    json_field "prediction" (predict sample_app g_a req_30_zeros).1 = Some name /\
    py_get (meta sample_app) "class_names" JNull = Ok class_names /\
    (py_truthy class_names = true -> py_getitem class_names idx = Ok name) /\
    (py_truthy class_names = false -> name = JInt idx).
Proof.
  apply (prediction_names_class sample_app g_a req_30_zeros). reflexivity.
Defined.

(** * Further properties of the service *)

(** ** Answers of [POST /predict] *)
Section Answers.
Context `{Runtime}.

(** The three shapes an answer of the view can have. *)
Lemma predict_cases (a : App) (g : G) (r : request) :
  (exists m idx name proba rid,
      model a = Some m /\
      predict_try m (meta a) r = Ok (idx, name, proba) /\
      request_id g = Some rid /\
      (predict a g r).1 =
        jsonify (JDict [("status", JStr "success");
                        ("prediction_index", JInt idx);
                        ("prediction", name);
                        ("proba", proba_json proba);
                        ("request_id", JStr rid)]) 200) \/
  (exists errors,
      (predict a g r).1 =
        jsonify (JDict [("status", JStr "error");
                        ("message", JStr "Payload inválido");
                        ("details", JList (map error_json errors))]) 400) \/
  (exists msg rest,
      (predict a g r).1 =
        jsonify (JDict (("status", JStr "error") :: ("message", JStr msg) :: rest)) 500).
Proof.
  unfold predict.
  destruct (model a) as [m|]; [|right; right; by eexists _, _].
  destruct (predict_try m (meta a) r) as [[[idx name] proba]|e] eqn:Htry.
  - destruct (request_id g) as [rid|] eqn:Hrid.
    + left. by exists m, idx, name, proba, rid.
    + right; right. by eexists _, _.
  - destruct e as [errors|cls msg].
    + right; left. by exists errors.
    + right; right. by eexists _, _.
Qed.

Lemma PredictInput_new_length (data : value) (payload : PredictInput) :
  PredictInput_new data = Ok payload -> List.length (features payload) = 30%nat.
Proof.
  destruct data as [| | | | | |kwargs]; try discriminate.
  rewrite PredictInput_new_dict.
  destruct (assoc "features" kwargs) as [v|]; [|discriminate].
  destruct v; try discriminate.
  destruct (Nat.ltb_spec 30 (List.length items)); [discriminate|].
  destruct (item_errors 0 items) eqn:Herrs; [|discriminate].
  destruct (Nat.ltb_spec (List.length items) 30); [discriminate|].
  intros [= <-]. simpl.
  apply item_errors_nil in Herrs. rewrite item_floats_length by done. lia.
Qed.

(** What a successful inference returned, probabilities included. *)
Lemma infer_ok_steps m mt X idx name proba :
  infer m mt X = Ok (idx, name, proba) ->
  proba_step m X = Ok proba /\ Predictor.predict m X = Ok idx.
Proof.
  unfold infer, proba_step. result_cases.
  destruct (match Predictor.predict_proba m with
            | Some pp => match pp X with
                         | Ok p => Ok (Some p)
                         | Raise e => Raise e
                         end
            | None => Ok None
            end) as [pr|]; [|discriminate].
  destruct (Predictor.predict m X) as [i|]; [|discriminate].
  destruct (py_get mt "class_names" JNull) as [cn|]; [|discriminate].
  destruct (if py_truthy cn then py_getitem cn i else Ok (JInt i)); [|discriminate].
  by intros [= <- <- <-].
Qed.

(** X1. Every answer of the predict view is a JSON object with a [status]:
    200 with ["success"], 400 with ["error"], the message
    ["Payload inválido"] and a [details] list, or 500 with ["error"] and a
    [message] text; no other status code is produced. *)
Theorem predict_answer_shapes (a : App) (g : G) (r : request) :
  (status_code (predict a g r).1 = 200 /\
   json_field "status" (predict a g r).1 = Some (JStr "success")) \/
  (status_code (predict a g r).1 = 400 /\
   json_field "status" (predict a g r).1 = Some (JStr "error") /\
   json_field "message" (predict a g r).1 = Some (JStr "Payload inválido") /\
   exists details, json_field "details" (predict a g r).1 = Some (JList details)) \/
  (status_code (predict a g r).1 = 500 /\
   json_field "status" (predict a g r).1 = Some (JStr "error") /\
   exists msg, json_field "message" (predict a g r).1 = Some (JStr msg)).
Proof.
  destruct (predict_cases a g r)
    as [(m & idx & name & proba & rid & _ & _ & _ & ->)
       |[(errors & ->)|(msg & rest & ->)]].
  - left. by split.
  - right; left. repeat split; try done. by eexists.
  - right; right. repeat split; try done. by exists msg.
Qed.

(** X2. A successful answer comes from the request's own body: the body was
    read as JSON and validated to one vector of exactly 30 floats; the index
    is what [predict] returned on that vector, and [proba] is what
    [predict_proba] returned on the same vector, or [null] exactly when the
    model has no [predict_proba]. *)
Theorem success_uses_one_feature_vector (a : App) (m : Predictor.t) (g : G) (r : request) :
  model a = Some m ->
  status_code (predict a g r).1 = 200 ->
  exists (data : value) (X : list float) (idx : Z) (proba : option (list float)),
    get_json r = Ok data /\
    PredictInput_new data = Ok {| features := X |} /\
    List.length X = 30%nat /\
    Predictor.predict m X = Ok idx /\
    proba_step m X = Ok proba /\
    (proba = None <-> Predictor.predict_proba m = None) /\
    json_field "prediction_index" (predict a g r).1 = Some (JInt idx) /\
    json_field "proba" (predict a g r).1 = Some (proba_json proba).
Proof.
  intros Hm Hstatus.
  destruct (predict_cases a g r)
    as [(m' & idx & name & proba & rid & Hm' & Htry & _ & Hresp)
       |[(errors & Hresp)|(msg & rest & Hresp)]];
    rewrite Hresp in Hstatus |- *; try discriminate.
  rewrite Hm in Hm'. injection Hm' as <-.
  pose proof Htry as (data & payload & cn & Hjson & Hok & _)%predict_try_ok_inv.
  rewrite (predict_try_valid _ _ _ _ _ Hjson Hok) in Htry.
  apply infer_ok_steps in Htry as [Hproba Hidx].
  exists data, (features payload), idx, proba.
  split_and!; try done.
  - by destruct payload.
  - by apply PredictInput_new_length with data.
  - split.
    + intros ->. unfold proba_step in Hproba. result_cases.
      destruct (Predictor.predict_proba m) as [pp|]; [|done].
      destruct (pp (features payload)); discriminate.
    + intros Hnone. unfold proba_step in Hproba. rewrite Hnone in Hproba. congruence.
Qed.

(** X3. Validation gates inference: for every request, either reading the
    body as JSON or validating it raises, and the [try] body raises that
    very exception whatever model is loaded (the model is not consulted);
    or the body was read and validated to one vector of exactly 30 floats,
    and the outcome is that of inference on this vector. *)
Theorem validation_gates_inference (mt : value) (r : request) :
  (exists e : pyexc,
      (get_json r = Raise e \/
       exists data, get_json r = Ok data /\ PredictInput_new data = Raise e) /\
      forall m, predict_try m mt r = Raise e) \/
  (exists (data : value) (X : list float),
      get_json r = Ok data /\
      PredictInput_new data = Ok {| features := X |} /\
      List.length X = 30%nat /\
      forall m, predict_try m mt r = infer m mt X).
Proof.
  destruct (get_json r) as [data|e] eqn:Hjson.
  - destruct (PredictInput_new data) as [payload|e] eqn:Hnew.
    + right. exists data, (features payload). split_and!.
      * done.
      * by destruct payload.
      * by apply PredictInput_new_length with data.
      * intros m. by apply predict_try_valid with data.
    + left. exists e. split; [right; by exists data|].
      intros m. by apply predict_try_invalid with data.
  - left. exists e. split; [by left|].
    intros m. unfold predict_try. result_cases. by rewrite Hjson.
Qed.

Lemma item_floats_pointwise (items : list value) :
  forallb convertible items = true ->
  Forall2 (fun v f => Pydantic.validate_float v = inr f) items (item_floats items).
Proof.
  induction items as [|item rest IH]; simpl; [constructor|].
  unfold convertible at 1.
  destruct (Pydantic.validate_float item) as [ty|f] eqn:Hitem; simpl; [discriminate|].
  intros Hrest. constructor; [done|by apply IH].
Qed.

(** X4. The validator accepts exactly the objects that meet the contract (a
    [features] list of 30 elements that all convert), and the accepted
    features are the conversions of the elements, one for one and in order. *)
Theorem validator_accepts_exactly_the_contract (kwargs : list (string * value)) :
  raised (PredictInput_new (JDict kwargs)) = negb (meets_contract 30 kwargs) /\
  forall payload : PredictInput,
    PredictInput_new (JDict kwargs) = Ok payload ->
    exists items : list value,
      assoc "features" kwargs = Some (JList items) /\
      Forall2 (fun v f => Pydantic.validate_float v = inr f) items (features payload).
Proof.
  destruct (meets_contract 30 kwargs) eqn:Hmeets.
  - destruct (PredictInput_new_accepts kwargs Hmeets) as (items & Hfeat & Hok).
    rewrite Hok. split; [done|].
    intros payload [= <-]. exists items. split; [done|]. simpl.
    apply item_floats_pointwise.
    unfold meets_contract in Hmeets. rewrite Hfeat in Hmeets.
    by apply andb_prop in Hmeets as [_ ?].
  - destruct (PredictInput_new_rejects kwargs Hmeets) as (e & es & Hraise).
    rewrite Hraise. split; [done|]. discriminate.
Qed.

(** X5. A [features] list of the wrong length whose elements all convert is
    answered with exactly one [details] entry, at the field itself:
    [too_short] under 30 elements, [too_long] over 30. *)
Theorem wrong_arity_single_entry (a : App) (m : Predictor.t) (g : G) (r : request)
    (kwargs : list (string * value)) (items : list value) :
  model a = Some m ->
  get_json r = Ok (JDict kwargs) ->
  assoc "features" kwargs = Some (JList items) ->
  forallb convertible items = true ->
  List.length items <> 30%nat ->
  status_code (predict a g r).1 = 400 /\
  json_field "details" (predict a g r).1 =
    Some (JList [error_json
                   (ErrorDetail (if (List.length items <? 30)%nat then "too_short"
                                 else "too_long")
                      [LocField "features"] (JList items))]).
Proof.
  intros Hm Hjson Hfeat Hall Hlen.
  pose proof (PredictInput_new_dict kwargs) as Hnew. rewrite Hfeat in Hnew.
  apply item_errors_nil with (index := 0%nat) in Hall. rewrite Hall in Hnew.
  destruct (Nat.ltb_spec 30 (List.length items)) as [Hlong|Hfit].
  - rewrite (predict_invalid _ _ _ _ _ _ Hm Hjson Hnew).
    destruct (Nat.ltb_spec (List.length items) 30); [lia|done].
  - destruct (Nat.ltb_spec (List.length items) 30) as [Hshort|Hge]; [|lia].
    by rewrite (predict_invalid _ _ _ _ _ _ Hm Hjson Hnew).
Qed.

(** X6. Validation is idempotent on its output: the features of an accepted
    payload, sent again as JSON numbers, are accepted and give the same
    payload, NaN and infinities included. *)
Theorem validated_features_validate_again (data : value) (payload : PredictInput) :
  PredictInput_new data = Ok payload ->
  PredictInput_new (JDict [("features", JList (map JFloat (features payload)))]) = Ok payload.
Proof.
  intros Hok. pose proof (PredictInput_new_length _ _ Hok) as Hlen.
  destruct payload as [fs]. cbn [features] in *.
  assert (Hall : forallb convertible (map JFloat fs) = true).
  { clear. induction fs; [done|]. simpl. exact IHfs. }
  assert (Hfloats : item_floats (map JFloat fs) = fs).
  { clear. induction fs; [done|]. simpl. by rewrite IHfs. }
  destruct (PredictInput_new_accepts [("features", JList (map JFloat fs))])
    as (items & Hfeat & Hnew).
  { unfold meets_contract. cbn [assoc String.eqb]. cbn.
    rewrite length_map, Hlen, Hall. done. }
  cbn in Hfeat. injection Hfeat as <-. by rewrite Hnew, Hfloats.
Qed.

End Answers.

(** ** Start-up *)
Section Startup.
Context `{Runtime}.

(** X10. Whatever the load does, [create_app] returns an application in one
    of three states: loaded (a model, no error), failed (no model, the
    reason, empty metadata), or without a model and without an error, which
    is what a bundle whose stored model is [None] leaves.  It keeps the
    artifact path and logs exactly one record without a request id: ERROR
    when the load raised and INFO whenever it returned, a returned [None]
    included.  A bundle without the key ["model"] is a failed load with the
    reason ['model']; a bundle without ["meta"] loads with empty metadata. *)
Theorem create_app_state (artifact_path : string) (loaded : result bundle) :
  let a := (create_app artifact_path loaded).1 in
  let records := (create_app artifact_path loaded).2 in
  ARTIFACT_PATH a = artifact_path /\
  (health_ok a = true <-> is_Some (model a)) /\
  (is_Some (model a) -> load_error a = None) /\
  (load_error a <> None -> meta a = JDict []) /\
  match loaded with
  | Raise e =>
      model a = None /\ load_error a = Some (exc_str e) /\
      records = [format None "ERROR" (MsgLoadError (exc_str e))]
  | Ok obj =>
      match bundle_model obj with
      | None =>
          model a = None /\ load_error a = Some "'model'" /\
          records = [format None "ERROR" (MsgLoadError "'model'")]
      | Some stored =>
          model a = stored /\ load_error a = None /\
          meta a = default (JDict []) (bundle_meta obj) /\
          records = [format None "INFO" (MsgModelLoaded artifact_path)]
      end
  end /\
  Forall (fun rec => log_request_id rec = None) records.
Proof.
  unfold create_app, load_artifact. result_cases.
  destruct loaded as [obj|e]; [destruct (bundle_model obj) as [[m|]|]|]; cbn.
  all: split_and!; try done; try (by eauto); try (by repeat constructor).
  all: try (by split; [|intros [? [=]]]); try (by split; [intros [? [=]]|]).
  all: try (by intros [? [=]]).
Qed.

End Startup.

(** ** The request cycle, continued *)
Section Worker.
Context `{Runtime}.

Lemma total_count_inc (k : string * string * string)
    (c : gmap (string * string * string) nat) :
  total_count (inc k c) = S (total_count c).
Proof.
  unfold total_count, inc.
  assert (Hcomm : forall (m : gmap (string * string * string) nat) j1 j2 z1 z2 y,
             j1 <> j2 -> m !! j1 = Some z1 -> m !! j2 = Some z2 ->
             (z1 + (z2 + y) = z2 + (z1 + y))%nat) by (intros; lia).
  destruct (c !! k) as [n|] eqn:Hk; simpl.
  - rewrite <- (insert_delete_eq c).
    rewrite map_fold_insert_L; [|by eauto|by apply lookup_delete_eq].
    rewrite (map_fold_delete_L _ _ k n c); [lia|by eauto|done].
  - rewrite map_fold_insert_L; [lia|by eauto|done].
Qed.






Lemma inc_monotone (k k' : string * string * string)
    (c : gmap (string * string * string) nat) :
  (default 0 (c !! k') <= default 0 (inc k c !! k'))%nat.
Proof.
  unfold inc. destruct (decide (k = k')) as [->|Hne].
  - rewrite lookup_insert_eq. simpl. lia.
  - by rewrite lookup_insert_ne.
Qed.

Lemma observe_extends (k k' : string * string) (x : float)
    (h : gmap (string * string) (list float)) :
  exists more, default [] (observe k x h !! k') = (default [] (h !! k') ++ more)%list.
Proof.
  unfold observe. destruct (decide (k = k')) as [->|Hne].
  - rewrite lookup_insert_eq. by eexists.
  - rewrite lookup_insert_ne by done. exists []. by rewrite app_nil_r.
Qed.

(** X12. The registry only grows: across any sequence of requests no counter
    decreases and no latency series loses or reorders an observation (the
    old series is a prefix of the new one). *)
Theorem registry_only_grows (s : server) (reqs : list (env * request)) :
  exists (s' : server) (resps : list response),
    serve_all s reqs = Ok (s', resps) /\
    (forall k, (default 0 (REQ_COUNT (metrics_registry s) !! k)
                <= default 0 (REQ_COUNT (metrics_registry s') !! k))%nat) /\
    (forall k, exists more,
        default [] (REQ_LATENCY (metrics_registry s') !! k)
        = (default [] (REQ_LATENCY (metrics_registry s) !! k) ++ more)%list).
Proof.
  revert s. induction reqs as [|[e r] rest IH]; intros s; simpl.
  - exists s, []. split; [done|]. split; [done|]. intros k. exists []. by rewrite app_nil_r.
  - result_cases. rewrite handle_request_unfold.
    match goal with |- context [serve_all ?s1 rest] =>
      destruct (IH s1) as (s2 & resps & -> & Hcount & Hobs)
    end.
    eexists _, _. split; [reflexivity|]. cbn in *. split.
    + intros k. etrans; [|apply Hcount]. apply inc_monotone.
    + intros k. destruct (Hobs k) as [more ->].
      match goal with |- context [observe ?kl ?x ?h] =>
        destruct (observe_extends kl k x h) as [first ->]
      end.
      exists (first ++ more)%list. by rewrite app_assoc.
Qed.

End Worker.

(** ** Routing and isolation *)
Section Isolation.
Context `{Runtime}.

Lemma match_request_predict (p m : string) :
  match_request p m = RouteView EpPredict <-> p = "/predict" /\ m = "POST".
Proof.
  split.
  - unfold match_request, match_rule, url_map. cbn [assoc].
    destruct (static_filename p) as [filename|];
      repeat match goal with
      | |- context [String.eqb ?x ?y] => destruct (String.eqb_spec x y); subst; cbn
      end; try discriminate; done.
  - intros [-> ->]. reflexivity.
Qed.

(** Outside [POST /predict] a view looks at the model only to see whether
    there is one. *)
Lemma dispatch_ignores_model (path_ : string) (m1 m2 : Predictor.t) (mt : value)
    (err : option string) (reg : registry) (g : G) (e : env) (rt : route) (r : request) :
  rt <> RouteView EpPredict ->
  dispatch_request
    {| ARTIFACT_PATH := path_; model := Some m1; meta := mt; load_error := err |} reg g e rt r
  = dispatch_request
      {| ARTIFACT_PATH := path_; model := Some m2; meta := mt; load_error := err |} reg g e rt r.
Proof.
  intros Hrt. destruct rt as [[| | | |filename]|ep| |]; try done.
Qed.

(** X13. Inference is reachable only through [POST /predict]: the predict
    view runs for that path and method and for no other, and the answer to
    every other request is the same whichever model is loaded. *)
Theorem inference_only_by_post_predict :
  (forall p m : string,
      match_request p m = RouteView EpPredict <-> p = "/predict" /\ m = "POST") /\
  (forall (path_ : string) (m1 m2 : Predictor.t) (mt : value) (err : option string)
          (reg : registry) (lg : list log_record) (e : env) (r : request),
      ~ (path r = "/predict" /\ method r = "POST") ->
      served {| app := {| ARTIFACT_PATH := path_; model := Some m1; meta := mt;
                          load_error := err |};
                metrics_registry := reg; log := lg |} e r
      = served {| app := {| ARTIFACT_PATH := path_; model := Some m2; meta := mt;
                            load_error := err |};
                  metrics_registry := reg; log := lg |} e r).
Proof.
  split; [exact match_request_predict|].
  intros path_ m1 m2 mt err reg lg e r Hother.
  rewrite !served_unfold. cbn [app metrics_registry].
  rewrite (dispatch_ignores_model path_ m1 m2); [done|].
  by rewrite match_request_predict.
Qed.

(** X8. In a successful answer to [POST /predict] the [request_id] of the
    body is the value of the response's [X-Request-Id] header. *)
Theorem success_body_carries_header_id (s : server) (e : env) (r : request)
    (resp : response) :
  path r = "/predict" ->
  method r = "POST" ->
  served s e r = Some resp ->
  status_code resp = 200 ->
  exists rid : string,
    headers resp !! "X-Request-Id" = Some rid /\
    json_field "request_id" resp = Some (JStr rid).
Proof.
  intros Hpath Hmethod Hserved Hstatus.
  rewrite served_unfold, Hpath, Hmethod in Hserved.
  change (match_request "/predict" "POST") with (RouteView EpPredict) in Hserved.
  cbn [dispatch_request] in Hserved. injection Hserved as <-.
  cbn [status_code headers] in *. unfold json_field. cbn [body].
  exists (default (uuid4 e) (req_headers r !! "X-Request-Id")).
  split; [apply lookup_insert_eq|].
  destruct (predict_cases (app s) (before r e) r)
    as [(m & idx & name & proba & rid & _ & _ & Hrid & Hresp)
       |[(errors & Hresp)|(msg & rest & Hresp)]];
    rewrite Hresp in Hstatus |- *; try discriminate.
  cbn in Hrid. injection Hrid as <-. reflexivity.
Qed.

(** [infer], step by step. *)
Lemma infer_unfold (m : Predictor.t) (mt : value) (X : list float) :
  infer m mt X =
    (proba ← proba_step m X;
     pred_idx ← Predictor.predict m X;
     class_names ← py_get mt "class_names" JNull;
     pred_name ← (if py_truthy class_names then py_getitem class_names pred_idx
                  else Ok (JInt pred_idx));
     Ok (pred_idx, pred_name, proba)).
Proof. reflexivity. Qed.

(** X7. With a non-empty [class_names] list of length [n], an index in
    [-n .. n-1] is answered 200 with the name at that index, negative
    indices counting from the end; any other index is answered 500 with
    the message ["list index out of range"]. *)
Theorem class_name_lookup_bounds (a : App) (m : Predictor.t) (g : G) (r : request)
    (data : value) (payload : PredictInput) (proba : option (list float)) (idx : Z)
    (names : list value) (rid : string) :
  model a = Some m ->
  get_json r = Ok data ->
  PredictInput_new data = Ok payload ->
  proba_step m (features payload) = Ok proba ->
  Predictor.predict m (features payload) = Ok idx ->
  py_get (meta a) "class_names" JNull = Ok (JList names) ->
  names <> [] ->
  request_id g = Some rid ->
  let n := Z.of_nat (List.length names) in
  if (- n <=? idx) && (idx <? n)
  then status_code (predict a g r).1 = 200 /\
       is_Some (json_field "prediction" (predict a g r).1) /\
       json_field "prediction" (predict a g r).1 = nth_error names (Z.to_nat (idx mod n))
  else status_code (predict a g r).1 = 500 /\
       json_field "message" (predict a g r).1 = Some (JStr "list index out of range").
Proof.
  intros Hm Hjson Hok Hproba Hidx Hnames Hne Hrid n.
  assert (Htry : predict_try m (meta a) r =
                 (name ← py_getitem (JList names) idx; Ok (idx, name, proba))).
  { rewrite (predict_try_valid _ _ _ _ _ Hjson Hok), infer_unfold.
    result_cases. rewrite Hproba, Hidx, Hnames.
    destruct names; [done|]. reflexivity. }
  unfold predict. rewrite Hm, Htry. result_cases.
  unfold py_getitem, norm_index. fold n.
  assert (0 < n) by (destruct names; [done|]; subst n; simpl; lia).
  destruct (Z.leb_spec 0 idx), (Z.ltb_spec idx n), (Z.leb_spec (- n) idx),
    (Z.ltb_spec idx 0); cbn [andb]; try lia.
  - rewrite Z.mod_small by lia.
    destruct (nth_error names (Z.to_nat idx)) as [x|] eqn:Hx.
    + rewrite Hrid. cbn. by eauto.
    + apply nth_error_None in Hx. lia.
  - done.
  - replace (idx mod n) with (n + idx).
    2:{ symmetry. rewrite <- (Z.mod_add idx 1 n) by lia.
        rewrite Z.mod_small by lia. lia. }
    destruct (nth_error names (Z.to_nat (n + idx))) as [x|] eqn:Hx.
    + rewrite Hrid. cbn. by eauto.
    + apply nth_error_None in Hx. lia.
  - done.
Qed.

End Isolation.

(** ** The training script's artifact, served *)
Section Trained.
Context `{Runtime}.


End Trained.

(** ** The test client *)
Section TestClient.
Context `{Runtime}.

(** The health call: the health document on 200, a crash on 500. *)
Lemma http_get_health (s : server) (e : env) :
  exists (s1 : server) (resp : response) (n : Z),
    handle_request s e (get_request "/health" ∅) = Ok (s1, resp) /\
    total_count (REQ_COUNT (metrics_registry s1))
      = S (total_count (REQ_COUNT (metrics_registry s))) /\
    status_code resp = (if health_ok (app s) then 200 else 500) /\
    n_features_expected (meta (app s)) = Ok n /\
    json_field "model_loaded" resp = Some (JBool (health_ok (app s))) /\
    Client.document resp = Some (Client.health_document (app s) n) /\
    Client.http_get s e "/health" =
      (s1, if health_ok (app s) then inr (Client.health_document (app s) n)
           else inl (Client.HttpStatus 500)).
Proof.
  destruct (health_response (app s)) as (n & Hn & Hresp).
  unfold Client.http_get, Client.exchange. rewrite handle_request_unfold.
  cbn [path method get_request].
  change (match_request "/health" "GET") with (RouteView EpHealth).
  cbn [dispatch_request]. rewrite Hresp.
  eexists _, _, n. split; [reflexivity|].
  split; [cbn; apply total_count_inc|].
  split; [reflexivity|]. split; [exact Hn|]. split; [reflexivity|].
  split; [reflexivity|].
  unfold Client.health_document. destruct (health_ok (app s)); reflexivity.
Qed.

(** One sample posted: the request is served; an answer is the document of
    a 200 response whose [status] is ["success"]. *)
Lemma http_post_predict (writes : value -> bool) (s : server) (e : env) (payload : value) :
  (exists f, Client.http_post writes s e "/predict" payload = (s, inl f)) \/
  exists (s1 : server) (resp : response),
    handle_request s e (Client.post_request "/predict" payload) = Ok (s1, resp) /\
    ((exists f, Client.http_post writes s e "/predict" payload = (s1, inl f)) \/
     (exists answer,
        Client.http_post writes s e "/predict" payload = (s1, inr answer) /\
        status_code resp = 200 /\
        json_field "status" resp = Some (JStr "success") /\
        Client.document resp = Some answer)).
Proof.
  unfold Client.http_post.
  destruct (writes payload); [|left; by eexists].
  right. unfold Client.exchange. rewrite handle_request_unfold.
  cbn [path method Client.post_request].
  change (match_request "/predict" "POST") with (RouteView EpPredict).
  cbn [dispatch_request].
  eexists _, _. split; [reflexivity|].
  cbn [fst snd status_code body].
  match goal with |- context [predict ?a ?g ?r] =>
    destruct (predict_cases a g r)
      as [(m & idx & name & proba & rid & _ & _ & _ & ->)
         |[(errors & ->)|(msg & rest & ->)]]
  end; cbn; [right|left|left]; by eexists.
Qed.

Lemma post_samples_run (writes : value -> bool) (samples : list Client.sample)
    (s : server) (out : list Client.line) (err : list Client.note) :
  let run := Client.post_samples writes s samples out err in
  Client.stderr run = err /\
  (forall code, Client.ending run <> Client.Exited code) /\
  (Client.ending run = Client.Completed ->
   exists (posts : list (env * request)) (resps : list response) (answers : list value),
     mapM Client.sample_request samples = Some posts /\
     serve_all s posts = Ok (Client.server_after run, resps) /\
     Forall2 (fun resp answer =>
                status_code resp = 200 /\
                json_field "status" resp = Some (JStr "success") /\
                Client.document resp = Some answer) resps answers /\
     List.length answers = List.length samples /\
     Client.stdout run = (out ++ Client.transcript samples answers ++ [Client.Done])%list).
Proof.
  revert s out. induction samples as [|p rest IH]; intros s out; cbn.
  - split; [done|]. split; [done|]. intros _. exists [], [], [].
    by split_and!.
  - destruct (Client.sample_json p) as [payload|ex] eqn:Hjson; [|by split_and!].
    destruct (http_post_predict writes s (Client.sample_env p) payload)
      as [[f ->]|(s1 & resp & Hserved & [[f ->]|(answer & -> & Hstatus & Hsuccess & Hdoc)])];
      [by split_and!|by split_and!|].
    destruct (IH s1 ((out ++ [Client.PredictBanner (Client.sample_name p)])
                       ++ [Client.Doc answer])%list)
      as (Hw & Hexit & Hdone).
    split; [exact Hw|]. split; [exact Hexit|].
    intros Hend.
    destruct (Hdone Hend) as (posts & resps & answers & Hposts & Hserve & Hall & Hlen & Hout).
    exists ((Client.sample_env p, Client.post_request "/predict" payload) :: posts),
      (resp :: resps), (answer :: answers).
    split_and!.
    + unfold Client.sample_request in *. rewrite Hjson. cbn. by rewrite Hposts.
    + cbn. result_cases. by rewrite Hserved, Hserve.
    + by constructor.
    + simpl. by rewrite Hlen.
    + rewrite Hout. unfold Client.transcript. cbn. by rewrite <- !app_assoc.
Qed.

(** X15. The test script never prints its model-not-loaded warning: when the
    service holds no usable model the health call itself fails on the 500
    and the script dies there, having printed only the health banner and
    posted nothing.  It leaves with exit code 2 in exactly two ways: the
    argument parser rejects the command line, before any request is made,
    or the health check passed and there is no sample file. *)
Theorem client_health_gate (args : Client.parsed_args) (writes : value -> bool)
    (s : server) (e : env) (samples : list Client.sample) :
  let run := Client.main args writes s e samples in
  (Client.ModelNotLoaded ∉ Client.stderr run) /\
  (Client.ending run = Client.Exited 2 <->
     args = Client.ArgsExit 2 \/
     ((exists base_url, args = Client.Args base_url) /\
      health_ok (app s) = true /\ samples = [])) /\
  (forall code,
      args = Client.ArgsExit code ->
      Client.ending run = Client.Exited code /\
      Client.server_after run = s) /\
  (forall base_url,
      args = Client.Args base_url ->
      health_ok (app s) = false ->
      Client.ending run = Client.Crashed (Client.HttpStatus 500) /\
      Client.stdout run = [Client.HealthBanner (Client.rstrip_slash base_url ++ "/health")] /\
      total_count (REQ_COUNT (metrics_registry (Client.server_after run)))
        = S (total_count (REQ_COUNT (metrics_registry s)))).
Proof.
  destruct args as [base_url|code]; cbn.
  2:{ split_and!.
      - by intros []%list_elem_of_In.
      - split.
        + intros [= ->]. by left.
        + intros [[= ->]|[[? [=]] _]]. done.
      - by intros ? [= ->].
      - by intros ? [=]. }
  destruct (http_get_health s e) as (s1 & resp & n & _ & Hcount & _ & _ & _ & _ & ->).
  destruct (health_ok (app s)) eqn:Hok; cbn; rewrite ?Hok; cbn.
  - destruct samples as [|p rest].
    + cbn. split_and!.
      * intros Hin%list_elem_of_In. by destruct Hin as [|[]].
      * split; [intros _; right; by eauto|done].
      * by intros ? [=].
      * by intros ? _ [=].
    + match goal with |- context [Client.post_samples ?ri ?s1 ?l ?out ?err] =>
        destruct (post_samples_run ri l s1 out err) as (Hw & Hexit & _)
      end.
      split_and!.
      * rewrite Hw. by intros []%list_elem_of_In.
      * split; [intros Hend; by apply Hexit in Hend|].
        intros [[=]|(_ & _ & [=])].
      * by intros ? [=].
      * by intros ? _ [=].
  - split_and!.
    + by intros []%list_elem_of_In.
    + split; [by intros [=]|]. intros [[=]|(_ & [=] & _)].
    + by intros ? [=].
    + by intros ? [= <-] _.
Qed.

(** X16. When the test script runs to its last line, every sample file read
    as JSON, and the service has served the health check and then one
    [POST /predict] per sample file, in the order of the files, each
    answered 200.  The script has printed the health banner, the health
    document (with [model_loaded] true), then for each sample in order its
    banner and the very document of the answer to it, whose [status] is
    ["success"], then the closing line; and nothing on stderr. *)
Theorem client_completes_on_successes (base_url : string) (writes : value -> bool)
    (s : server) (e : env) (samples : list Client.sample) :
  let run := Client.main (Client.Args base_url) writes s e samples in
  Client.ending run = Client.Completed ->
  samples <> [] /\
  exists (posts : list (env * request)) (resp_h : response) (resps : list response)
         (h : value) (answers : list value),
    mapM Client.sample_request samples = Some posts /\
    serve_all s ((e, get_request "/health" ∅) :: posts)
      = Ok (Client.server_after run, resp_h :: resps) /\
    status_code resp_h = 200 /\
    json_field "model_loaded" resp_h = Some (JBool true) /\
    Client.document resp_h = Some h /\
    Forall2 (fun resp answer =>
               status_code resp = 200 /\
               json_field "status" resp = Some (JStr "success") /\
               Client.document resp = Some answer) resps answers /\
    List.length answers = List.length samples /\
    Client.stdout run =
      (Client.HealthBanner (Client.rstrip_slash base_url ++ "/health") :: Client.Doc h
         :: Client.transcript samples answers ++ [Client.Done])%list /\
    Client.stderr run = [].
Proof.
  cbn.
  destruct (http_get_health s e)
    as (s1 & resp_h & n & Hserved & _ & Hstatus & _ & Hloaded & Hdoc & ->).
  destruct (health_ok (app s)) eqn:Hok; [|discriminate].
  cbn. rewrite Hok. cbn.
  destruct samples as [|p rest]; [discriminate|].
  match goal with |- context [Client.post_samples ?ri ?s1 ?l ?out ?err] =>
    destruct (post_samples_run ri l s1 out err) as (Herr & _ & Hdone)
  end.
  intros Hend. split; [done|].
  destruct (Hdone Hend) as (posts & resps & answers & Hposts & Hserve & Hall & Hlen & Hout).
  exists posts, resp_h, resps, (Client.health_document (app s) n), answers.
  split_and!; try done.
  cbn [serve_all]. result_cases. by rewrite Hserved, Hserve.
Qed.

End TestClient.

(** ** The further properties on concrete requests *)

Lemma success_uses_one_feature_vector_witness :
  exists (data : value) (X : list float) (idx : Z) (proba : option (list float)),
    get_json req_30_zeros = Ok data /\
    PredictInput_new data = Ok {| features := X |} /\
    List.length X = 30%nat /\
    Predictor.predict sample_clf X = Ok idx /\
    proba_step sample_clf X = Ok proba /\
    (proba = None <-> Predictor.predict_proba sample_clf = None) /\
    json_field "prediction_index" (predict sample_app g_a req_30_zeros).1 = Some (JInt idx) /\
    json_field "proba" (predict sample_app g_a req_30_zeros).1 = Some (proba_json proba).
Proof.
  apply (success_uses_one_feature_vector sample_app sample_clf g_a req_30_zeros);
    reflexivity.
Defined.

Lemma wrong_arity_single_entry_witness :
  json_field "details" (predict sample_app g_a (post_predict ∅ (features_body (zeros 5)))).1 =
    Some (JList [error_json
                   (ErrorDetail "too_short" [LocField "features"] (JList (zeros 5)))]).
Proof.
  destruct (wrong_arity_single_entry sample_app sample_clf g_a
              (post_predict ∅ (features_body (zeros 5)))
              [("features", JList (zeros 5))] (zeros 5)) as [_ Hdetails];
    [reflexivity | reflexivity | reflexivity | reflexivity | discriminate | exact Hdetails].
Defined.

Lemma success_body_carries_header_id_witness :
  exists resp : response,
    served (fresh_server sample_app) env_a req_30_zeros = Some resp /\
    exists rid : string,
      headers resp !! "X-Request-Id" = Some rid /\
      json_field "request_id" resp = Some (JStr rid).
Proof.
  eexists. split; [apply served_unfold|].
  apply (success_body_carries_header_id (fresh_server sample_app) env_a req_30_zeros _
           eq_refl eq_refl (served_unfold _ _ _)).
  reflexivity.
Defined.

Lemma class_name_lookup_bounds_witness :
  json_field "prediction" (predict sample_app g_a req_30_zeros).1 = Some (JStr "benign").
Proof.
  exact (proj2 (proj2
    (class_name_lookup_bounds sample_app sample_clf g_a req_30_zeros
       (JDict [("features", JList (zeros 30))]) {| features := repeat 0%float 30 |}
       (Some [0.25%float; 0.75%float]) 1 [JStr "malignant"; JStr "benign"] (uuid4 env_a)
       eq_refl eq_refl eq_refl eq_refl eq_refl eq_refl
       (fun Hnil => eq_ind [JStr "malignant"; JStr "benign"]
                      (fun l => match l with [] => False | _ => True end) I [] Hnil)
       eq_refl))).
Defined.


Lemma client_completes_witness :
  exists (h : value) (answers : list value),
    List.length answers = 1%nat /\
    Client.stdout (Client.main (Client.Args "http://127.0.0.1:5000/") Client.requests_writes
                     (fresh_server sample_app) env_a one_sample_file) =
      (Client.HealthBanner "http://127.0.0.1:5000/health" :: Client.Doc h
         :: Client.transcript one_sample_file answers ++ [Client.Done])%list.
Proof.
  destruct (client_completes_on_successes "http://127.0.0.1:5000/" Client.requests_writes
              (fresh_server sample_app) env_a one_sample_file)
    as (_ & posts & resp_h & resps & h & answers & _ & _ & _ & _ & _ & _ & Hlen & Hout & _);
    [vm_compute; reflexivity|].
  exists h, answers. split; [exact Hlen | exact Hout].
Defined.

Lemma validated_features_validate_again_witness :
  PredictInput_new (JDict [("features", JList (map JFloat (repeat 0%float 30)))])
    = Ok {| features := repeat 0%float 30 |}.
Proof.
  apply (validated_features_validate_again (JDict [("features", JList (zeros 30))])
           {| features := repeat 0%float 30 |}).
  reflexivity.
Defined.
